(** * smtp-uvx-mcp: the Mail Sender and the Tool Gateway

    A shallow embedding of [src/smtp_uvx_mcp/server.py]:

    - [EmailClient.__init__]  as [EmailClient_init]  (configuration from the environment),
    - [EmailClient.send_email] as [send_email]       (compose, one transport send, result dict),
    - [handle_list_tools] / [handle_call_tool]       (the protocol-facing gateway).

    Python values are embedded as [pyval]; a [str] is a [string] whose
    characters are the code points below 256.  Raised exceptions are the
    [Raise] branch of [outcome].  Everything the program reaches outside
    itself (the mail-message library's validation, the clock and random
    bits behind [make_msgid], the SMTP conversation) is a field of
    [Platform], so every theorem holds for all behaviours of these
    collaborators. *)

From Stdlib Require Import ZArith NArith Ascii String List Bool Lia DecimalString DecimalPos.
From stdpp Require Import base option list gmap strings.

Local Open Scope Z_scope.
Local Open Scope string_scope.
Local Open Scope list_scope.
Import ListNotations.

(* ===================================================================== *)
(** ** Python exceptions and outcomes *)
(* ===================================================================== *)

(** The exception classes that occur.  [ExceptionSubclass n] is any other
    class deriving from [Exception] (the SMTP library's errors, [OSError],
    [TimeoutError], ...); [BaseExceptionOnly n] is a class deriving from
    [BaseException] but not from [Exception] ([asyncio.CancelledError],
    [KeyboardInterrupt], [SystemExit]). *)
Inductive exc_class : Type :=
  | ValueError
  | RuntimeError
  | TypeError
  | KeyError
  | ExceptionSubclass (name : string)
  | BaseExceptionOnly (name : string).

(** A raised exception: its class and the text [str(e)]. *)
Record exn : Type := mk_exn { exc_type : exc_class; exc_str : string }.

(** [isinstance(e, Exception)]: what an [except Exception] clause catches. *)
Definition is_Exception (e : exn) : bool :=
  match exc_type e with
  | BaseExceptionOnly _ => false
  | _ => true
  end.

(** [isinstance(e, ValueError)] for the classes above. *)
Definition is_ValueError (e : exn) : bool :=
  match exc_type e with
  | ValueError => true
  | _ => false
  end.

Inductive outcome (A : Type) : Type :=
  | Return (a : A)
  | Raise (e : exn).
Arguments Return {A} a.
Arguments Raise {A} e.

Definition raises {A} (o : outcome A) : bool :=
  match o with Raise _ => true | Return _ => false end.

(* ===================================================================== *)
(** ** Python values *)
(* ===================================================================== *)

(** A [float] is kept as what the program can observe of it: whether it
    compares equal to zero (its truth value) and its [repr]. *)
Record pyfloat : Type := mk_float { float_is_zero : bool; float_repr : string }.

#[warnings="-register-all"]
Inductive pyval : Type :=
  | PyNone
  | PyBool (b : bool)
  | PyInt (z : Z)
  | PyFloat (f : pyfloat)
  | PyStr (s : string)
  | PyList (l : list pyval)
  | PyDict (d : list (string * pyval)).

(** Truth value testing ([bool(v)], [if v], [v or d], [not v]). *)
Definition truthy (v : pyval) : bool :=
  match v with
  | PyNone => false
  | PyBool b => b
  | PyInt z => negb (z =? 0)%Z
  | PyFloat f => negb (float_is_zero f)
  | PyStr s => negb (String.eqb s "")
  | PyList l => match l with [] => false | _ => true end
  | PyDict d => match d with [] => false | _ => true end
  end.

(** [a or b]. *)
Definition py_or (a b : pyval) : pyval := if truthy a then a else b.

(** [d.get(k)] on a [dict]: [None] when the key is missing. *)
Definition dict_get (d : gmap string pyval) (k : string) : pyval :=
  match d !! k with
  | Some v => v
  | None => PyNone
  end.

Definition isinstance_list (v : pyval) : bool :=
  match v with PyList _ => true | _ => false end.

Definition isinstance_str (v : pyval) : bool :=
  match v with PyStr _ => true | _ => false end.

(** Iterating a value the way [for x in to] does once [to] is known to be
    a list. *)
Definition list_items (v : pyval) : list pyval :=
  match v with PyList l => l | _ => [] end.

(** The strings of a list of [str] objects. *)
Fixpoint str_items (l : list pyval) : list string :=
  match l with
  | [] => []
  | PyStr s :: r => s :: str_items r
  | _ :: r => str_items r
  end.

(** Reading a key of a result dict (insertion order is kept, keys are
    unique by construction). *)
Fixpoint assoc (k : string) (d : list (string * pyval)) : option pyval :=
  match d with
  | [] => None
  | (k', v) :: r => if String.eqb k k' then Some v else assoc k r
  end.

Definition result_get (k : string) (r : pyval) : option pyval :=
  match r with PyDict d => assoc k d | _ => None end.

(* ===================================================================== *)
(** ** String primitives *)
(* ===================================================================== *)

(** [ord(c)]. *)
Definition ord (c : ascii) : N := N_of_ascii c.

Definition is_digit (c : ascii) : bool := ((48 <=? ord c) && (ord c <=? 57))%N.

(** [sep.join(parts)]. *)
Fixpoint join (sep : string) (parts : list string) : string :=
  match parts with
  | [] => ""
  | [p] => p
  | p :: rest => p +:+ sep +:+ join sep rest
  end.

(** ['%d' % z]. *)
Definition dec (z : Z) : string := NilZero.string_of_int (Z.to_int z).

(** [str.lower] on code points below 256: A-Z and the Latin-1 capitals
    0xC0-0xDE other than 0xD7 move up by 0x20. *)
Definition lower_char (c : ascii) : ascii :=
  let n := ord c in
  if (((65 <=? n) && (n <=? 90)) ||
      ((192 <=? n) && (n <=? 222) && negb (n =? 215)))%N
  then ascii_of_N (n + 32) else c.

Fixpoint lower (s : string) : string :=
  match s with
  | EmptyString => EmptyString
  | String c r => String (lower_char c) (lower r)
  end.

(** Line boundaries of [str.splitlines] below 256. *)
Definition is_linebreak (c : ascii) : bool :=
  let n := ord c in
  (((10 <=? n) && (n <=? 13)) || ((28 <=? n) && (n <=? 30)) || (n =? 133))%N.

(** [len(s.splitlines())]: every line boundary ends a line (CR LF counts
    once), and text after the last boundary is one more line. *)
Fixpoint count_lines (s : string) (pending : bool) : nat :=
  match s with
  | EmptyString => if pending then 1%nat else 0%nat
  | String c r =>
      if is_linebreak c then
        match r with
        | String c' r' =>
            if ((ord c =? 13) && (ord c' =? 10))%N
            then S (count_lines r' false)
            else S (count_lines r false)
        | EmptyString => 1%nat
        end
      else count_lines r true
  end.

Definition splitlines_len (s : string) : nat := count_lines s false.

(** White space that [int] skips around the literal: the ASCII white
    space 0x09-0x0D and 0x20, and the two Unicode spaces below 256. *)
Definition is_int_space (c : ascii) : bool :=
  let n := ord c in
  (((9 <=? n) && (n <=? 13)) || (n =? 32) || (n =? 133) || (n =? 160))%N.

Fixpoint lstrip_int (cs : list ascii) : list ascii :=
  match cs with
  | c :: r => if is_int_space c then lstrip_int r else cs
  | [] => []
  end.

Definition strip_int (cs : list ascii) : list ascii :=
  rev (lstrip_int (rev (lstrip_int cs))).

Definition digit_val (c : ascii) : Z := Z.of_N (ord c) - 48.

(** Digits with single underscores between them; called after a digit
    has been read.  Yields the value and the number of digits. *)
Fixpoint int_digits (cs : list ascii) (acc : Z) (n : nat) : option (Z * nat) :=
  match cs with
  | [] => Some (acc, n)
  | c :: r =>
      if is_digit c then int_digits r (10 * acc + digit_val c) (S n)
      else if Ascii.eqb c "_" then
        match r with
        | d :: r' =>
            if is_digit d then int_digits r' (10 * acc + digit_val d) (S n)
            else None
        | [] => None
        end
      else None
  end.

Definition int_unsigned (cs : list ascii) : option (Z * nat) :=
  match cs with
  | c :: r => if is_digit c then int_digits r (digit_val c) 1 else None
  | [] => None
  end.

(** [sys.get_int_max_str_digits()], at its default. *)
Definition int_max_str_digits : nat := 4300.

(** [int(s)] for a [str] in base 10.  Every failure is a [ValueError]. *)
Definition py_int (s : string) : outcome Z :=
  let invalid := Raise (mk_exn ValueError "invalid literal for int() with base 10") in
  let body := strip_int (list_ascii_of_string s) in
  let '(neg, ds) :=
    match body with
    | c :: r => if Ascii.eqb c "-" then (true, r)
                else if Ascii.eqb c "+" then (false, r)
                else (false, body)
    | [] => (false, body)
    end in
  match int_unsigned ds with
  | None => invalid
  | Some (v, n) =>
      if (int_max_str_digits <? n)%nat
      then Raise (mk_exn ValueError "Exceeds the limit for integer string conversion")
      else Return (if neg then - v else v)
  end.

(* ===================================================================== *)
(** ** Sender configuration: [EmailClient.__init__] *)
(* ===================================================================== *)

(** The attributes of an [EmailClient] instance. *)
Record EmailClient : Type := mkEmailClient {
  host : string;
  port : Z;
  use_tls : bool;
  username : string;
  password : string;
  from_addr : string
}.

(** [not v] for the result of [os.environ.get(k)]: missing or empty. *)
Definition env_falsy (o : option string) : bool :=
  match o with
  | None => true
  | Some s => String.eqb s ""
  end.

(** [os.environ.get(k, d)]. *)
Definition env_get_default (environ : gmap string string) (k d : string) : string :=
  match environ !! k with
  | Some v => v
  | None => d
  end.

Definition EmailClient_init (environ : gmap string string) : outcome EmailClient :=
  let host := environ !! "SMTP_HOST" in
  if env_falsy host then Raise (mk_exn RuntimeError "SMTP_HOST is required") else
  let port_str := env_get_default environ "SMTP_PORT" "587" in
  let port_try :=
    match py_int port_str with
    | Return p => Return p
    | Raise e => if is_ValueError e then Return 587 else Raise e
    end in
  match port_try with
  | Raise e => Raise e
  | Return port =>
      let secure := String.eqb (lower (env_get_default environ "SMTP_SECURE" "false")) "true" in
      let username := environ !! "SMTP_USER" in
      let password := environ !! "SMTP_PASS" in
      if env_falsy username || env_falsy password
      then Raise (mk_exn RuntimeError "SMTP_USER and SMTP_PASS are required")
      else
        let from_env := environ !! "SMTP_FROM" in
        Return {| host := default "" host;
                  port := port;
                  use_tls := secure;
                  username := default "" username;
                  password := default "" password;
                  from_addr := if env_falsy from_env then default "" username
                               else default "" from_env |}
  end.

(* ===================================================================== *)
(** ** The composed message ([email.message.EmailMessage]) *)
(* ===================================================================== *)

(** A content part: [text/<subtype>] and the object given as its body. *)
Record part : Type := mkPart { part_subtype : string; part_body : pyval }.

(** What a message carries: nothing yet, one part, or a
    [multipart/alternative] container of parts. *)
Inductive payload : Type :=
  | NoContent
  | Single (p : part)
  | Alternative (ps : list part).

(** Headers hold the values the program assigned, in order; the headers
    the library adds on its own (MIME-Version, Content-Type, ...) are
    not part of the model. *)
Record Message : Type := mkMessage {
  headers : list (string * pyval);
  content : payload
}.

Definition content_parts (m : Message) : list part :=
  match content m with
  | NoContent => []
  | Single p => [p]
  | Alternative ps => ps
  end.

Definition header (name : string) (m : Message) : option pyval :=
  snd <$> List.find (fun h => String.eqb (fst h) name) (headers m).

(** [make_alternative]: existing content becomes the first subpart. *)
Definition make_alternative (m : Message) : Message :=
  {| headers := headers m; content := Alternative (content_parts m) |}.

(* ===================================================================== *)
(** ** The platform: collaborators outside the program *)
(* ===================================================================== *)

(** The keyword arguments of [aiosmtplib.send]. *)
Record SendParams : Type := mkSendParams {
  sp_hostname : string;
  sp_port : Z;
  sp_username : string;
  sp_password : string;
  sp_use_tls : bool;
  sp_start_tls : bool
}.

(** What [make_msgid] reads: [int(time.time()*100)], [os.getpid()],
    [random.getrandbits(64)] and [socket.getfqdn()]. *)
Record MsgIdSource : Type := mkMsgIdSource {
  timeval : Z;
  pid : Z;
  randint : Z;
  fqdn : string
}.

(** The second component of the transport's response, as the program
    uses it: [hasattr(info, "decode")], [info.decode()], [str(info)]. *)
Record info_obj : Type := mkInfo {
  info_has_decode : bool;
  info_decode : outcome string;
  info_str : string
}.

Record Platform : Type := mkPlatform {
  (** [policy.header_store_parse(name, value)]: the error the
      mail-message library raises for this value, if it refuses it. *)
  header_refused : string -> pyval -> option exn;
  (** The content manager on [set_content(obj, subtype=...)]: the error
      raised for this object, if it refuses it. *)
  content_refused : pyval -> string -> option exn;
  (** The sources read by the [n]-th platform call. *)
  msgid_source : nat -> MsgIdSource;
  (** [aiosmtplib.send] made as the [n]-th platform call: the
      [(code, info)] response, or the exception it raises. *)
  smtp_send : nat -> Message -> SendParams -> outcome (pyval * info_obj)
}.

(** Calls that leave the program, in order. *)
Inductive event : Type :=
  | CallSendEmail (to : list string) (subject text html : pyval)
  | CallEmailMessage
  | CallMakeMsgid (result : string)
  | CallSmtpSend (msg : Message) (params : SendParams).

Record World : Type := mkWorld { tick : nat; trace : list event }.

Definition world0 : World := {| tick := 0; trace := [] |}.

(** A computation: may raise, and threads the world. *)
Definition M (A : Type) : Type := World -> outcome A * World.

Definition ret {A} (a : A) : M A := fun w => (Return a, w).
Definition raise {A} (e : exn) : M A := fun w => (Raise e, w).
Definition bind {A B} (m : M A) (k : A -> M B) : M B :=
  fun w => match m w with
           | (Return a, w') => k a w'
           | (Raise e, w') => (Raise e, w')
           end.
Definition lift {A} (o : outcome A) : M A := fun w => (o, w).
(** A library check that raises when it refuses. *)
Definition check (o : option exn) : M unit :=
  fun w => match o with Some e => (Raise e, w) | None => (Return tt, w) end.
Definition log (ev : event) : M unit :=
  fun w => (Return tt, {| tick := tick w; trace := trace w ++ [ev] |}).

(** [try: body  except Exception as e: handler e]. *)
Definition try_except_Exception {A} (body : M A) (handler : exn -> M A) : M A :=
  fun w => match body w with
           | (Return a, w') => (Return a, w')
           | (Raise e, w') => if is_Exception e then handler e w' else (Raise e, w')
           end.

Declare Scope py_scope.
Delimit Scope py_scope with py.
Notation "x <- c1 ;; c2" := (bind c1 (fun x => c2))
  (at level 100, c1 at next level, right associativity) : py_scope.
Notation "c1 ;;; c2" := (bind c1 (fun _ => c2))
  (at level 100, right associativity) : py_scope.

(** [email.utils.make_msgid()] with no arguments:
    ['<%d.%d.%d%s@%s>' % (timeval, pid, randint, '', domain)]. *)
Definition format_msgid (src : MsgIdSource) : string :=
  "<" +:+ dec (timeval src) +:+ "." +:+ dec (pid src) +:+ "." +:+ dec (randint src)
      +:+ "" +:+ "@" +:+ fqdn src +:+ ">".

Section Program.

Variable P : Platform.

Definition make_msgid : M string :=
  fun w =>
    let id := format_msgid (msgid_source P (tick w)) in
    (Return id, {| tick := S (tick w); trace := trace w ++ [CallMakeMsgid id] |}).

Definition aiosmtplib_send (msg : Message) (params : SendParams) : M (pyval * info_obj) :=
  fun w =>
    (smtp_send P (tick w) msg params,
     {| tick := S (tick w); trace := trace w ++ [CallSmtpSend msg params] |}).

(** [EmailMessage()]. *)
Definition EmailMessage_new : M Message :=
  (log CallEmailMessage ;;; ret {| headers := []; content := NoContent |})%py.

(** [msg[name] = value]: a fresh message has no header to collide with,
    so the header is appended once the policy accepts the value.  The
    model records the value the program assigned; the header object the
    library builds from it (and may rewrite) is not modelled. *)
Definition setitem (msg : Message) (name : string) (value : pyval) : M Message :=
  (check (header_refused P name value) ;;;
   ret {| headers := headers msg ++ [(name, value)]; content := content msg |})%py.

(** [msg.set_content(obj)]: text/plain replaces the content. *)
Definition set_content (msg : Message) (obj : pyval) : M Message :=
  (check (content_refused P obj "plain") ;;;
   ret {| headers := headers msg; content := Single (mkPart "plain" obj) |})%py.

(** [msg.add_alternative(obj, subtype=subtype)]: the message becomes
    multipart/alternative if it is not yet, then a new part is attached. *)
Definition add_alternative (msg : Message) (obj : pyval) (subtype : string) : M Message :=
  let msg' := match content msg with
              | Alternative _ => msg
              | _ => make_alternative msg
              end in
  (check (content_refused P obj subtype) ;;;
   ret {| headers := headers msg';
          content := Alternative (content_parts msg' ++ [mkPart subtype obj]) |})%py.

(** [send_email], lines 50-63: the message and its generated id. *)
Definition compose (self : EmailClient) (to : list string) (subject text html : pyval)
  : M (Message * string) :=
  (msg <- EmailMessage_new ;;
   msg <- setitem msg "From" (PyStr (from_addr self)) ;;
   msg <- setitem msg "To" (PyStr (join ", " to)) ;;
   msg <- setitem msg "Subject" subject ;;
   msg_id <- make_msgid ;;
   msg <- setitem msg "Message-Id" (PyStr msg_id) ;;
   msg <- (if truthy html
           then (msg <- set_content msg (py_or text (PyStr "")) ;;
                 add_alternative msg html "html")
           else set_content msg (py_or text (PyStr ""))) ;;
   ret (msg, msg_id))%py.

(** [info.decode() if hasattr(info, "decode") else str(info)]. *)
Definition response_info (info : info_obj) : outcome string :=
  if info_has_decode info then info_decode info else Return (info_str info).

Definition connect_params (self : EmailClient) (start_tls : bool) : SendParams :=
  {| sp_hostname := host self;
     sp_port := port self;
     sp_username := username self;
     sp_password := password self;
     sp_use_tls := use_tls self;
     sp_start_tls := start_tls |}.

(** [EmailClient.send_email(self, *, to, subject, text, html=None)]. *)
Definition send_email (self : EmailClient) (to : list string) (subject text html : pyval)
  : M pyval :=
  (log (CallSendEmail to subject text html) ;;;
   match to with
   | [] => raise (mk_exn ValueError "At least one recipient is required")
   | _ =>
     composed <- compose self to subject text html ;;
     let '(msg, msg_id) := composed in
     let start_tls := negb (use_tls self) in
     try_except_Exception
       (response <- aiosmtplib_send msg (connect_params self start_tls) ;;
        let '(code, info) := response in
        info_text <- lift (response_info info) ;;
        ret (PyDict [("messageId", PyStr msg_id);
                     ("accepted", PyList (PyStr <$> to));
                     ("rejected", PyList []);
                     ("responseCode", code);
                     ("responseInfo", PyStr info_text)]))
       (fun e =>
        ret (PyDict [("messageId", PyStr msg_id);
                     ("accepted", PyList []);
                     ("rejected", PyList (PyStr <$> to));
                     ("error", PyStr (exc_str e))]))
   end)%py.

End Program.

(* ===================================================================== *)
(** ** [json.dumps] with its defaults *)
(* ===================================================================== *)

Definition dquote : ascii := "034"%char.
Definition backslash : ascii := "092"%char.

Definition hex_digit (n : N) : ascii :=
  if (n <? 10)%N then ascii_of_N (48 + n) else ascii_of_N (87 + n).

(** One character under [ensure_ascii]: the short escapes, and
    [\u00xx] for everything outside the printable ASCII range. *)
Definition json_escape_char (c : ascii) : string :=
  let n := ord c in
  let esc (x : ascii) := String backslash (String x EmptyString) in
  if (n =? 34)%N then esc dquote
  else if (n =? 92)%N then esc backslash
  else if (n =? 8)%N then esc "b"%char
  else if (n =? 12)%N then esc "f"%char
  else if (n =? 10)%N then esc "n"%char
  else if (n =? 13)%N then esc "r"%char
  else if (n =? 9)%N then esc "t"%char
  else if ((32 <=? n) && (n <=? 126))%N then String c EmptyString
  else String backslash
         (String "u" (String "0" (String "0"
           (String (hex_digit (n / 16)) (String (hex_digit (n mod 16)) EmptyString))))).

Fixpoint json_escape (s : string) : string :=
  match s with
  | EmptyString => EmptyString
  | String c r => json_escape_char c +:+ json_escape r
  end.

Definition json_string (s : string) : string :=
  String dquote (json_escape s +:+ String dquote EmptyString).

Fixpoint json_dumps (v : pyval) : string :=
  match v with
  | PyNone => "null"
  | PyBool b => if b then "true" else "false"
  | PyInt z => dec z
  | PyFloat f => float_repr f
  | PyStr s => json_string s
  | PyList l => "[" +:+ join ", " (List.map json_dumps l) +:+ "]"
  | PyDict d =>
      "{" +:+ join ", " (List.map (fun kv => json_string (fst kv) +:+ ": " +:+ json_dumps (snd kv)) d)
          +:+ "}"
  end.

(* ===================================================================== *)
(** ** The Tool Gateway *)
(* ===================================================================== *)

(** [types.TextContent(type=..., text=...)]. *)
Record TextContent : Type := mkTextContent { tc_type : string; tc_text : string }.

(** [types.Tool(name=..., description=..., inputSchema=...)]. *)
Record Tool : Type := mkTool {
  tool_name : string;
  tool_description : string;
  tool_inputSchema : pyval
}.

Definition handle_list_tools : list Tool :=
  [ {| tool_name := "send_email";
       tool_description := "Send an email to a recipient";
       tool_inputSchema :=
         PyDict [("type", PyStr "object");
                 ("properties",
                  PyDict [("to", PyDict [("type", PyStr "array");
                                         ("items", PyDict [("type", PyStr "string")]);
                                         ("description", PyStr "List of recipient email addresses")]);
                          ("subject", PyDict [("type", PyStr "string");
                                              ("description", PyStr "Email subject")]);
                          ("body", PyDict [("type", PyStr "string");
                                           ("description", PyStr "Email body content (text/plain)")])]);
                 ("required", PyList [PyStr "to"; PyStr "subject"; PyStr "body"])] |} ].

Section Gateway.

Variable P : Platform.

(** [handle_call_tool(name, arguments)], with the module-level
    [email_client] as a parameter. *)
Definition handle_call_tool (email_client : EmailClient)
    (name : string) (arguments : gmap string pyval) : M (list TextContent) :=
  if negb (String.eqb name "send_email")
  then raise (mk_exn ValueError ("Unknown tool: " +:+ name))
  else
    let to := py_or (dict_get arguments "to") (PyList []) in
    let subject := py_or (dict_get arguments "subject") (PyStr "") in
    let body := py_or (dict_get arguments "body") (PyStr "") in
    if negb (isinstance_list to) || negb (forallb isinstance_str (list_items to))
    then raise (mk_exn ValueError "'to' must be a list of strings")
    else
      (result <- send_email P email_client (str_items (list_items to)) subject body PyNone ;;
       ret [ {| tc_type := "text"; tc_text := json_dumps result |} ])%py.

(** *** The protocol runtime around the handlers *)

Inductive request : Type :=
  | ListTools
  | CallTool (name : string) (arguments : gmap string pyval).

Inductive response : Type :=
  | ToolList (tools : list Tool)
  | CallResult (content : list TextContent)
  | ProtocolError (e : exn).

Inductive server_state : Type :=
  | Uninitialized
  | Ready (email_client : EmailClient)
  | Exited.

(** Modelled from the spec: the protocol-server runtime ([mcp.server]),
    which is not part of the repository.  Section 4.2: startup builds the
    Mail Sender and reaches Ready, or aborts when the configuration
    fails. *)
Definition startup (environ : gmap string string) : outcome server_state :=
  match EmailClient_init environ with
  | Return c => Return (Ready c)
  | Raise e => Raise e
  end.

(** Modelled from the spec: the protocol-server runtime ([mcp.server]),
    which is not part of the repository.  Section 4.2: in Ready a
    list-capabilities request is answered with the descriptors; an
    invocation runs the handler, a value it returns is a normal response
    and an error it raises is a protocol-level error for that call only,
    the server staying in Ready.  What is raised without being an
    [Exception] (a cancellation, an interrupt) ends the process. *)
Definition serve_request (st : server_state) (req : request) (w : World)
  : option response * server_state * World :=
  match st with
  | Ready c =>
      match req with
      | ListTools => (Some (ToolList handle_list_tools), Ready c, w)
      | CallTool name arguments =>
          match handle_call_tool c name arguments w with
          | (Return content, w') => (Some (CallResult content), Ready c, w')
          | (Raise e, w') =>
              if is_Exception e then (Some (ProtocolError e), Ready c, w')
              else (None, Exited, w')
          end
      end
  | _ => (None, st, w)
  end.

(** The loop: requests answered in the order received. *)
Fixpoint serve (st : server_state) (reqs : list request) (w : World)
  : list (option response) * server_state * World :=
  match reqs with
  | [] => ([], st, w)
  | req :: rest =>
      let '(r, st', w') := serve_request st req w in
      let '(rs, st'', w'') := serve st' rest w' in
      (r :: rs, st'', w'')
  end.

End Gateway.

(* ===================================================================== *)
(** ** Sample platforms *)
(* ===================================================================== *)

(** The documented rule of [header_store_parse]: a [str] that spans more
    than one line is refused with a [ValueError].  The library's other
    rules are left out of this sample. *)
Definition crlf_policy (name : string) (value : pyval) : option exn :=
  match value with
  | PyStr s =>
      if (1 <? splitlines_len s)%nat
      then Some (mk_exn ValueError
                   "Header values may not contain linefeed or carriage return characters")
      else None
  | _ => None
  end.

(** A content manager that takes [str] objects and has no handler for
    any other type. *)
Definition str_content (obj : pyval) (subtype : string) : option exn :=
  match obj with
  | PyStr _ => None
  | _ => Some (mk_exn KeyError "no content handler for this type")
  end.

Definition sample_source (n : nat) : MsgIdSource :=
  {| timeval := 179377748745 + Z.of_nat n; pid := 418;
     randint := 17522476395542556321; fqdn := "mail.example.com" |}.

(** A server that accepts every message. *)
Definition accepting : Platform :=
  {| header_refused := crlf_policy;
     content_refused := str_content;
     msgid_source := sample_source;
     smtp_send := fun _ _ _ =>
       Return (PyInt 250, {| info_has_decode := false;
                             info_decode := Return "2.0.0 OK";
                             info_str := "2.0.0 OK" |}) |}.

(** A transport that raises [e] on every send. *)
Definition failing (e : exn) : Platform :=
  {| header_refused := crlf_policy;
     content_refused := str_content;
     msgid_source := sample_source;
     smtp_send := fun _ _ _ => Raise e |}.

Definition auth_error : exn :=
  mk_exn (ExceptionSubclass "SMTPAuthenticationError") "(535, 'Authentication failed')".

Definition env1 : gmap string string :=
  <["SMTP_HOST" := "smtp.example.com"]>
  (<["SMTP_USER" := "a@example.com"]>
  (<["SMTP_PASS" := "x"]> ∅)).

Definition client1 : EmailClient :=
  {| host := "smtp.example.com"; port := 587; use_tls := false;
     username := "a@example.com"; password := "x"; from_addr := "a@example.com" |}.

(** Arguments without [to], and with one recipient. *)
Definition args0 : gmap string pyval :=
  <["subject" := PyStr "Hi"]> (<["body" := PyStr "Hello"]> ∅).

Definition args1 : gmap string pyval :=
  <["to" := PyList [PyStr "b@example.com"]]> args0.


(* ===================================================================== *)
(** ** Vocabulary of the specification *)
(* ===================================================================== *)

(** The two shapes of the dict that [send_email] returns. *)
Definition success_record (msg_id : string) (to : list string)
    (code : pyval) (info_text : string) : pyval :=
  PyDict [("messageId", PyStr msg_id);
          ("accepted", PyList (PyStr <$> to));
          ("rejected", PyList []);
          ("responseCode", code);
          ("responseInfo", PyStr info_text)].

Definition failure_record (msg_id : string) (to : list string) (error : string) : pyval :=
  PyDict [("messageId", PyStr msg_id);
          ("accepted", PyList []);
          ("rejected", PyList (PyStr <$> to));
          ("error", PyStr error)].

Definition has_key (k : string) (r : pyval) : bool :=
  match result_get k r with Some _ => true | None => false end.

(** The Success variant carries [responseCode], the Failure variant
    carries [error]. *)
Definition is_Success (r : pyval) : bool := has_key "responseCode" r && negb (has_key "error" r).
Definition is_Failure (r : pyval) : bool := has_key "error" r && negb (has_key "responseCode" r).

(** The world once [send_email] has been entered. *)
Definition entered (w : World) (to : list string) (subject text html : pyval) : World :=
  {| tick := tick w; trace := trace w ++ [CallSendEmail to subject text html] |}.

(** The transport sends recorded in a trace. *)
Definition smtp_sends (tr : list event) : list (Message * SendParams) :=
  flat_map (fun ev => match ev with CallSmtpSend m p => [(m, p)] | _ => [] end) tr.

(** The entries into the Mail Sender recorded in a trace. *)
Definition sender_calls (tr : list event) : list (list string) :=
  flat_map (fun ev => match ev with CallSendEmail to _ _ _ => [to] | _ => [] end) tr.

(** The messages created in a trace. *)
Definition messages_created (tr : list event) : nat :=
  length (flat_map (fun ev => match ev with CallEmailMessage => [tt] | _ => [] end) tr).

(** What the guarded region (lines 69-86) computes from the transport's
    answer: the code and the response text, or the exception raised by
    the send or by reading its response. *)
Definition guarded (resp : outcome (pyval * info_obj)) : outcome (pyval * string) :=
  match resp with
  | Return (code, info) =>
      match response_info info with
      | Return t => Return (code, t)
      | Raise e => Raise e
      end
  | Raise e => Raise e
  end.

(** The transport modes of section 4.1, step 4. *)
Inductive transport_mode : Type := ImplicitTLS | StartTLS.

(** The mode a send runs in; [None] when both flags or neither are set. *)
Definition mode_of (p : SendParams) : option transport_mode :=
  match sp_use_tls p, sp_start_tls p with
  | true, false => Some ImplicitTLS
  | false, true => Some StartTLS
  | _, _ => None
  end.

(** The configuration with its secure flag replaced. *)
Definition with_secure (b : bool) (c : EmailClient) : EmailClient :=
  {| host := host c; port := port c; use_tls := b;
     username := username c; password := password c; from_addr := from_addr c |}.

(** *** RFC 5322 message identifiers: ["<" dot-atom-text "@" dot-atom-text ">"] *)

Definition is_alpha (c : ascii) : bool :=
  (((65 <=? ord c) && (ord c <=? 90)) || ((97 <=? ord c) && (ord c <=? 122)))%N.

Definition atext (c : ascii) : bool :=
  is_alpha c || is_digit c ||
  existsb (N.eqb (ord c))
    [33; 35; 36; 37; 38; 39; 42; 43; 45; 47; 61; 63; 94; 95; 96; 123; 124; 125; 126]%N.

Fixpoint all_atext (s : string) : bool :=
  match s with
  | EmptyString => true
  | String c r => atext c && all_atext r
  end.

(** Atoms separated by single dots; [in_atom] tells whether an atom has
    just been read. *)
Fixpoint dot_atom_from (s : string) (in_atom : bool) : bool :=
  match s with
  | EmptyString => in_atom
  | String c r =>
      if atext c then dot_atom_from r true
      else if Ascii.eqb c "." then in_atom && dot_atom_from r false
      else false
  end.

Definition is_dot_atom (s : string) : bool := dot_atom_from s false.

Fixpoint msg_id_right (s : string) (in_atom : bool) : bool :=
  match s with
  | EmptyString => false
  | String c r =>
      if atext c then msg_id_right r true
      else if Ascii.eqb c "." then in_atom && msg_id_right r false
      else if Ascii.eqb c ">" then in_atom && String.eqb r EmptyString
      else false
  end.

Fixpoint msg_id_left (s : string) (in_atom : bool) : bool :=
  match s with
  | EmptyString => false
  | String c r =>
      if atext c then msg_id_left r true
      else if Ascii.eqb c "." then in_atom && msg_id_left r false
      else if Ascii.eqb c "@" then in_atom && msg_id_right r false
      else false
  end.

Definition is_msg_id (s : string) : bool :=
  match s with
  | String c r => Ascii.eqb c "<" && msg_id_left r false
  | EmptyString => false
  end.


(** The arguments the gateway passes on for [subject] and [body]. *)
Definition arg_subject (arguments : gmap string pyval) : pyval :=
  py_or (dict_get arguments "subject") (PyStr "").
Definition arg_body (arguments : gmap string pyval) : pyval :=
  py_or (dict_get arguments "body") (PyStr "").

(** The errors of the two argument checks and of the name check. *)
Definition no_recipient : exn := mk_exn ValueError "At least one recipient is required".
Definition bad_to : exn := mk_exn ValueError "'to' must be a list of strings".
Definition unknown_tool (name : string) : exn := mk_exn ValueError ("Unknown tool: " +:+ name).

(** [isinstance(to, list) and all(isinstance(x, str) for x in to)]. *)
Definition is_str_list (v : pyval) : bool :=
  isinstance_list v && forallb isinstance_str (list_items v).

(** One more answer in front of the answers to the remaining requests. *)
Definition answered {R S W : Type} (r : R) (x : list R * S * W) : list R * S * W :=
  (r :: fst (fst x), snd (fst x), snd x).

(** The world once composition has succeeded with the id [msg_id]. *)
Definition composed_world (w : World) (to : list string) (subject text html : pyval)
    (msg_id : string) : World :=
  {| tick := S (tick w);
     trace := trace w ++ [CallSendEmail to subject text html; CallEmailMessage;
                          CallMakeMsgid msg_id] |}.

(** The message that lines 50-63 build when nothing is refused. *)
Definition composed_message (self : EmailClient) (to : list string)
    (subject text html : pyval) (msg_id : string) : Message :=
  {| headers := [("From", PyStr (from_addr self)); ("To", PyStr (join ", " to));
                 ("Subject", subject); ("Message-Id", PyStr msg_id)];
     content := if truthy html
                then Alternative [mkPart "plain" (py_or text (PyStr ""));
                                  mkPart "html" html]
                else Single (mkPart "plain" (py_or text (PyStr ""))) |}.

(** The world after the transport has been called with [msg]. *)
Definition sent (self : EmailClient) (w : World) (msg : Message) : World :=
  {| tick := S (tick w);
     trace := trace w ++ [CallSmtpSend msg (connect_params self (negb (use_tls self)))] |}.

(** The three required variables are set and not empty. *)
Definition required_present (environ : gmap string string) : bool :=
  negb (env_falsy (environ !! "SMTP_HOST")) &&
  negb (env_falsy (environ !! "SMTP_USER")) &&
  negb (env_falsy (environ !! "SMTP_PASS")).

(** Sample values: the request of the scenarios of section 8, the id the
    sample sources give at the first call, and an exception whose text
    is empty. *)
Definition to1 : list string := ["b@example.com"].
Definition id1 : string := format_msgid (sample_source 0).
Definition msg1 : Message := composed_message client1 to1 (PyStr "Hi") (PyStr "Hello") PyNone id1.
Definition composed1 : World := composed_world world0 to1 (PyStr "Hi") (PyStr "Hello") PyNone id1.
Definition silent_error : exn := mk_exn (ExceptionSubclass "SMTPServerDisconnected") EmptyString.
Definition two_line_subject : pyval :=
  PyStr (String "H" (String "i" (String (ascii_of_N 10) (String "X" EmptyString)))).

(** *** Vocabulary of the further properties *)

(** One of the sixteen spellings of [true] in upper and lower case. *)
Definition is_true_spelling (s : string) : bool :=
  match s with
  | String a (String b (String d (String e EmptyString))) =>
      (Ascii.eqb a "t" || Ascii.eqb a "T") && (Ascii.eqb b "r" || Ascii.eqb b "R") &&
      (Ascii.eqb d "u" || Ascii.eqb d "U") && (Ascii.eqb e "e" || Ascii.eqb e "E")
  | _ => false
  end.

(** The value of a digit sequence read after [acc]. *)
Fixpoint uint_val (d : Decimal.uint) (acc : Z) : Z :=
  match d with
  | Decimal.Nil => acc
  | Decimal.D0 l => uint_val l (10 * acc + 0)
  | Decimal.D1 l => uint_val l (10 * acc + 1)
  | Decimal.D2 l => uint_val l (10 * acc + 2)
  | Decimal.D3 l => uint_val l (10 * acc + 3)
  | Decimal.D4 l => uint_val l (10 * acc + 4)
  | Decimal.D5 l => uint_val l (10 * acc + 5)
  | Decimal.D6 l => uint_val l (10 * acc + 6)
  | Decimal.D7 l => uint_val l (10 * acc + 7)
  | Decimal.D8 l => uint_val l (10 * acc + 8)
  | Decimal.D9 l => uint_val l (10 * acc + 9)
  end.

(** The characters of a digit sequence. *)
Definition uint_chars (d : Decimal.uint) : list ascii :=
  list_ascii_of_string (NilEmpty.string_of_uint d).

(** The entries into the Mail Sender with all their arguments. *)
Definition sender_entries (tr : list event) : list (list string * pyval * pyval * pyval) :=
  flat_map (fun ev => match ev with
                      | CallSendEmail to subject text html => [(to, subject, text, html)]
                      | _ => []
                      end) tr.

(** The argument names a tool's schema lists under [required]. *)
Definition tool_required (t : Tool) : list string :=
  match result_get "required" (tool_inputSchema t) with
  | Some (PyList l) => str_items l
  | _ => []
  end.

(** The keys of a result dict, in order. *)
Definition record_keys (r : pyval) : list string :=
  match r with
  | PyDict d => fst <$> d
  | _ => []
  end.

(** Printable ASCII: the characters from the space to the tilde. *)
Definition printable_char (c : ascii) : bool := ((32 <=? ord c) && (ord c <=? 126))%N.

Fixpoint printable (s : string) : bool :=
  match s with
  | EmptyString => true
  | String c r => printable_char c && printable r
  end.

(** Every float inside the value has a printable [repr]. *)
Fixpoint floats_printable (v : pyval) : bool :=
  match v with
  | PyFloat f => printable (float_repr f)
  | PyList l => forallb floats_printable l
  | PyDict d => forallb (fun kv => floats_printable (snd kv)) d
  | _ => true
  end.

Fixpoint pyval_size (v : pyval) : nat :=
  match v with
  | PyList l => S (list_sum (List.map pyval_size l))
  | PyDict d => S (list_sum (List.map (fun kv => pyval_size (snd kv)) d))
  | _ => 1%nat
  end.

(** Sample values: a response text that cannot be decoded, and a
    cancellation. *)
Definition decode_error : exn :=
  mk_exn (ExceptionSubclass "UnicodeDecodeError") "'utf-8' codec can't decode byte 0xff".
Definition undecodable : Platform :=
  {| header_refused := crlf_policy;
     content_refused := str_content;
     msgid_source := sample_source;
     smtp_send := fun _ _ _ =>
       Return (PyInt 250, {| info_has_decode := true;
                             info_decode := Raise decode_error;
                             info_str := "b'...'" |}) |}.
Definition cancelled : exn := mk_exn (BaseExceptionOnly "CancelledError") EmptyString.


(** Sample environments and arguments of the further properties. *)
Definition env_no_user : gmap string string :=
  <["SMTP_HOST" := "smtp.example.com"]> (<["SMTP_PORT" := "5o7"]> ∅).
Definition env_from : gmap string string :=
  <["SMTP_FROM" := "noreply@example.com"]> (<["SMTP_SECURE" := "TrUe"]>
    (<["SMTP_PORT" := "465"]> env1)).
Definition client_from : EmailClient :=
  {| host := "smtp.example.com"; port := 465; use_tls := true;
     username := "a@example.com"; password := "x"; from_addr := "noreply@example.com" |}.
Definition args_extra : gmap string pyval := <["cc" := PyStr "c@example.com"]> args1.
Definition args_numeric_subject : gmap string pyval := <["subject" := PyInt 5]> args1.
Definition params1 : SendParams := connect_params client1 (negb (use_tls client1)).

(* ===================================================================== *)
(** ** How a call runs *)
(* ===================================================================== *)

Ltac run_monad :=
  unfold setitem, set_content, add_alternative, EmailMessage_new, make_msgid,
    aiosmtplib_send, try_except_Exception, bind, ret, raise, lift, log, check in *;
  simpl in *.

(** A branch in which the library refused a value: the run stops there. *)
Ltac refused_case :=
  let H := fresh "H" in
  intros H; inversion H; subst; simpl;
  rewrite !flat_map_app; simpl; rewrite !app_nil_r; tauto.

Section Runs.

Variable P : Platform.
Variable self : EmailClient.

Lemma compose_Return to subject text html w msg msg_id w' :
  compose P self to subject text html w = (Return (msg, msg_id), w') ->
  msg_id = format_msgid (msgid_source P (tick w)) /\
  msg = composed_message self to subject text html msg_id /\
  w' = {| tick := S (tick w);
          trace := trace w ++ [CallEmailMessage; CallMakeMsgid msg_id] |}.
Proof.
  unfold compose, composed_message. run_monad.
  destruct (header_refused P "From" _); [discriminate|].
  destruct (header_refused P "To" _); [discriminate|].
  destruct (header_refused P "Subject" _); [discriminate|].
  destruct (header_refused P "Message-Id" _); [discriminate|].
  destruct (truthy html); simpl.
  - destruct (content_refused P _ "plain"); [discriminate|].
    destruct (content_refused P html "html"); [discriminate|].
    intros H. inversion H; subst. rewrite <- app_assoc. auto.
  - destruct (content_refused P _ "plain"); [discriminate|].
    intros H. inversion H; subst. rewrite <- app_assoc. auto.
Qed.

(** A refused field ends composition with the library's error; at most
    the message creation and the id generation have happened. *)
Lemma compose_Raise to subject text html w e w' :
  compose P self to subject text html w = (Raise e, w') ->
  smtp_sends (trace w') = smtp_sends (trace w) /\
  sender_calls (trace w') = sender_calls (trace w) /\
  (header_refused P "From" (PyStr (from_addr self)) = Some e \/
   header_refused P "To" (PyStr (join ", " to)) = Some e \/
   header_refused P "Subject" subject = Some e \/
   header_refused P "Message-Id" (PyStr (format_msgid (msgid_source P (tick w)))) = Some e \/
   content_refused P (py_or text (PyStr "")) "plain" = Some e \/
   content_refused P html "html" = Some e).
Proof.
  unfold compose. run_monad. unfold smtp_sends, sender_calls.
  destruct (header_refused P "From" _) eqn:HF; [refused_case|].
  destruct (header_refused P "To" _) eqn:HT; [refused_case|].
  destruct (header_refused P "Subject" _) eqn:HS; [refused_case|].
  destruct (header_refused P "Message-Id" _) eqn:HM; [refused_case|].
  destruct (truthy html); simpl.
  - destruct (content_refused P _ "plain") eqn:HP; [refused_case|].
    destruct (content_refused P html "html") eqn:HH; [refused_case|].
    discriminate.
  - destruct (content_refused P _ "plain") eqn:HP; [refused_case|].
    discriminate.
Qed.

(** [send_email] with recipients, phase by phase: composition outside
    the [try], then the guarded send. *)
Lemma send_email_run to subject text html w :
  to <> [] ->
  send_email P self to subject text html w =
  match compose P self to subject text html (entered w to subject text html) with
  | (Raise e, w1) => (Raise e, w1)
  | (Return (msg, msg_id), w1) =>
      match guarded (smtp_send P (tick w1) msg (connect_params self (negb (use_tls self)))) with
      | Return (code, info_text) =>
          (Return (success_record msg_id to code info_text), sent self w1 msg)
      | Raise e =>
          if is_Exception e
          then (Return (failure_record msg_id to (exc_str e)), sent self w1 msg)
          else (Raise e, sent self w1 msg)
      end
  end.
Proof.
  intros Hto. unfold send_email, entered, sent, guarded.
  destruct to as [|t0 to']; [congruence|].
  unfold bind at 1. unfold log at 1. cbv beta iota.
  unfold bind at 1.
  destruct (compose P self (t0 :: to') subject text html _) as [[[msg msg_id]|e] w1];
    [|reflexivity].
  unfold try_except_Exception, bind, aiosmtplib_send, lift, ret.
  destruct (smtp_send P (tick w1) msg _) as [[code info]|e]; simpl.
  - destruct (response_info info) as [t|e]; simpl; [reflexivity|].
    destruct (is_Exception e); reflexivity.
  - destruct (is_Exception e); reflexivity.
Qed.

Lemma send_email_empty subject text html w :
  send_email P self [] subject text html w =
  (Raise (mk_exn ValueError "At least one recipient is required"),
   entered w [] subject text html).
Proof. reflexivity. Qed.

End Runs.

(** Everything there is to know about a call that returned a record. *)
Lemma send_email_Return (P : Platform) (c : EmailClient) to subject text html w r w' :
  send_email P c to subject text html w = (Return r, w') ->
  to <> [] /\
  compose P c to subject text html (entered w to subject text html) =
    (Return (composed_message c to subject text html (format_msgid (msgid_source P (tick w))),
             format_msgid (msgid_source P (tick w))),
     composed_world w to subject text html (format_msgid (msgid_source P (tick w)))) /\
  w' = sent c (composed_world w to subject text html (format_msgid (msgid_source P (tick w))))
              (composed_message c to subject text html (format_msgid (msgid_source P (tick w)))) /\
  ((exists code info_text,
      guarded (smtp_send P (S (tick w))
                 (composed_message c to subject text html
                    (format_msgid (msgid_source P (tick w))))
                 (connect_params c (negb (use_tls c)))) = Return (code, info_text) /\
      r = success_record (format_msgid (msgid_source P (tick w))) to code info_text) \/
   (exists e,
      guarded (smtp_send P (S (tick w))
                 (composed_message c to subject text html
                    (format_msgid (msgid_source P (tick w))))
                 (connect_params c (negb (use_tls c)))) = Raise e /\
      is_Exception e = true /\
      r = failure_record (format_msgid (msgid_source P (tick w))) to (exc_str e))).
Proof.
  intros H.
  assert (Hto : to <> []).
  { intros ->. rewrite send_email_empty in H. discriminate. }
  split; [exact Hto|].
  rewrite send_email_run in H by exact Hto.
  destruct (compose P c to subject text html _) as [[[msg msg_id]|e] w1] eqn:Hc;
    [|discriminate].
  apply compose_Return in Hc. destruct Hc as (Hid & Hmsg & Hw1). simpl in Hid.
  subst msg_id.
  assert (Hw1' : w1 = composed_world w to subject text html
                        (format_msgid (msgid_source P (tick w)))).
  { rewrite Hw1. unfold composed_world, entered. simpl. now rewrite <- app_assoc. }
  clear Hw1. subst w1 msg. split; [reflexivity|].
  simpl in H.
  destruct (guarded _) as [[code t]|e] eqn:Hg.
  - inversion H; subst. split; [reflexivity|]. left. eauto.
  - destruct (is_Exception e) eqn:He; [|discriminate].
    inversion H; subst. split; [reflexivity|]. right. eauto.
Qed.

(** Each call makes at most one transport send, with the parameters
    derived from the configuration. *)
Lemma send_email_sends (P : Platform) (c : EmailClient) to subject text html w :
  exists l,
    smtp_sends (trace (snd (send_email P c to subject text html w)))
      = smtp_sends (trace w) ++ l /\
    (l = [] \/ exists msg, l = [(msg, connect_params c (negb (use_tls c)))]).
Proof.
  destruct to as [|t0 to'].
  - exists []. rewrite send_email_empty. unfold smtp_sends, entered. simpl.
    rewrite flat_map_app. simpl. auto.
  - rewrite send_email_run by discriminate.
    destruct (compose P c (t0 :: to') subject text html _) as [[[msg msg_id]|e] w1] eqn:Hc.
    + apply compose_Return in Hc. destruct Hc as (_ & _ & Hw1).
      exists [(msg, connect_params c (negb (use_tls c)))].
      split; [|eauto].
      assert (Hs : smtp_sends (trace (sent c w1 msg)) =
                   smtp_sends (trace w) ++ [(msg, connect_params c (negb (use_tls c)))]).
      { subst w1. unfold smtp_sends, sent, entered. simpl.
        rewrite !flat_map_app. simpl. now rewrite !app_nil_r. }
      destruct (guarded _) as [[code t]|e]; [exact Hs|].
      destruct (is_Exception e); exact Hs.
    + apply compose_Raise in Hc. destruct Hc as (Hs & _ & _).
      exists []. split; [|auto]. simpl. rewrite Hs.
      unfold smtp_sends, entered. simpl. rewrite flat_map_app. simpl. reflexivity.
Qed.

(* ===================================================================== *)
(** ** The generated message identifier *)
(* ===================================================================== *)

Lemma uint_all_atext (d : Decimal.uint) : all_atext (NilEmpty.string_of_uint d) = true.
Proof. induction d; simpl; auto. Qed.

Lemma dec_all_atext (z : Z) : all_atext (dec z) = true.
Proof.
  unfold dec. destruct z as [|p|p]; simpl; [reflexivity| |].
  - unfold NilZero.string_of_uint. destruct (Pos.to_uint p) eqn:E;
      try reflexivity; rewrite <- E; apply uint_all_atext.
  - unfold NilZero.string_of_uint. destruct (Pos.to_uint p) eqn:E;
      try reflexivity; rewrite <- E; apply uint_all_atext.
Qed.

Lemma dec_nonempty (z : Z) : dec z <> EmptyString.
Proof.
  unfold dec. destruct z as [|p|p]; simpl; try discriminate.
  unfold NilZero.string_of_uint. destruct (Pos.to_uint p); simpl; discriminate.
Qed.

(** An atom in front is read through. *)
Lemma msg_id_left_atom (a rest : string) (b : bool) :
  all_atext a = true ->
  msg_id_left (a +:+ rest) b =
  msg_id_left rest (match a with EmptyString => b | _ => true end).
Proof.
  revert b. induction a as [|ch a IH]; intros b Ha; [reflexivity|].
  simpl in Ha. apply andb_true_iff in Ha. destruct Ha as [Hc Ha].
  simpl. rewrite Hc, (IH true Ha).
  destruct a; reflexivity.
Qed.

Lemma msg_id_left_dec (z : Z) (rest : string) (b : bool) :
  msg_id_left (dec z +:+ rest) b = msg_id_left rest true.
Proof.
  rewrite msg_id_left_atom by apply dec_all_atext.
  pose proof (dec_nonempty z). destruct (dec z); [congruence | reflexivity].
Qed.

Lemma msg_id_right_dot_atom (d : string) (b : bool) :
  dot_atom_from d b = true -> msg_id_right (d +:+ ">") b = true.
Proof.
  revert b. induction d as [|ch d IH]; intros b H.
  - simpl in H. subst b. reflexivity.
  - simpl. simpl in H.
    destruct (atext ch); [now apply IH|].
    destruct (Ascii.eqb ch "."); [|discriminate].
    apply andb_true_iff in H. destruct H as [-> H]. simpl. now apply IH.
Qed.



(** On a host whose name is a dot-atom, the generated id is a message
    identifier in the sense of RFC 5322. *)
Lemma format_msgid_valid (src : MsgIdSource) :
  is_dot_atom (fqdn src) = true -> is_msg_id (format_msgid src) = true.
Proof.
  intros Hd. unfold format_msgid.
  change (msg_id_left (dec (timeval src) +:+ "." +:+ dec (pid src) +:+ "." +:+
                       dec (randint src) +:+ "" +:+ "@" +:+ fqdn src +:+ ">") false = true).
  rewrite msg_id_left_dec.
  change (msg_id_left (dec (pid src) +:+ "." +:+ dec (randint src) +:+ "" +:+ "@" +:+
                       fqdn src +:+ ">") false = true).
  rewrite msg_id_left_dec.
  change (msg_id_left (dec (randint src) +:+ "" +:+ "@" +:+ fqdn src +:+ ">") false = true).
  rewrite msg_id_left_dec.
  change (msg_id_right (fqdn src +:+ ">") false = true).
  now apply msg_id_right_dot_atom.
Qed.


(* ===================================================================== *)
(** ** The Mail Sender's results *)
(* ===================================================================== *)

Section SenderFacts.

Variable P : Platform.
Variable c : EmailClient.


(** C3 (amended): a returned record is of exactly one variant.  In the
    Success variant [accepted] is the recipient list as given and
    [rejected] is empty.  In the Failure variant [rejected] is the
    recipient list as given, [accepted] is empty, and [error] is the
    text [str(e)] of the exception raised in the guarded region, whatever
    that text is. *)
Theorem result_partitions_recipients to subject text html w r w' :
  send_email P c to subject text html w = (Return r, w') ->
  (is_Success r = true ->
     result_get "accepted" r = Some (PyList (PyStr <$> to)) /\
     result_get "rejected" r = Some (PyList [])) /\
  (is_Failure r = true ->
     result_get "rejected" r = Some (PyList (PyStr <$> to)) /\
     result_get "accepted" r = Some (PyList []) /\
     exists e,
       guarded (smtp_send P (S (tick w))
                  (composed_message c to subject text html
                     (format_msgid (msgid_source P (tick w))))
                  (connect_params c (negb (use_tls c)))) = Raise e /\
       is_Exception e = true /\
       result_get "error" r = Some (PyStr (exc_str e))) /\
  (is_Success r = negb (is_Failure r)).
Proof.
  intros H. apply send_email_Return in H. destruct H as (_ & _ & _ & Hcases).
  destruct Hcases as [(code & t & Hg & ->) | (e & Hg & He & ->)].
  - split; [|split]; [intros _; split; reflexivity | discriminate | reflexivity].
  - split; [|split]; [discriminate | | reflexivity].
    intros _. split; [reflexivity|]. split; [reflexivity|]. eauto.
Qed.

(** C6: the parameters of a send select exactly one of the two modes,
    implicit TLS when the secure flag is set and STARTTLS when it is not;
    every send a call makes (there is at most one) runs with these
    parameters; and the flag has no part in composition: with the flag
    replaced, composition gives the same message, id and world, and the
    messages handed to the transport are the same. *)
Theorem secure_flag_selects_mode :
  mode_of (connect_params c (negb (use_tls c)))
    = Some (if use_tls c then ImplicitTLS else StartTLS) /\
  (forall to subject text html w,
     exists l,
       smtp_sends (trace (snd (send_email P c to subject text html w)))
         = smtp_sends (trace w) ++ l /\
       (length l <= 1)%nat /\
       forall m p, In (m, p) l ->
         mode_of p = Some (if use_tls c then ImplicitTLS else StartTLS)) /\
  (forall b1 b2 to subject text html w,
     compose P (with_secure b1 c) to subject text html w
       = compose P (with_secure b2 c) to subject text html w) /\
  (forall b1 b2 to subject text html w,
     fst <$> smtp_sends (trace (snd (send_email P (with_secure b1 c) to subject text html w)))
     = fst <$> smtp_sends (trace (snd (send_email P (with_secure b2 c) to subject text html w)))).
Proof.
  assert (Hmode : forall k : EmailClient, mode_of (connect_params k (negb (use_tls k)))
            = Some (if use_tls k then ImplicitTLS else StartTLS)).
  { intros k. unfold mode_of, connect_params. simpl. destruct (use_tls k); reflexivity. }
  split; [apply Hmode|]. split; [|split].
  - intros to subject text html w.
    destruct (send_email_sends P c to subject text html w) as (l & Hl & Hshape).
    exists l. split; [exact Hl|].
    destruct Hshape as [-> | (msg & ->)]; simpl; (split; [lia|]).
    + intros m p Hin. destruct Hin.
    + intros m p Hin. destruct Hin as [Heq | Hin]; [|destruct Hin].
      inversion Heq; subst. apply Hmode.
  - reflexivity.
  - intros b1 b2 to subject text html w.
    destruct to as [|t0 to']; [reflexivity|].
    rewrite !send_email_run by discriminate.
    change (compose P (with_secure b1 c) (t0 :: to') subject text html)
      with (compose P (with_secure b2 c) (t0 :: to') subject text html).
    destruct (compose P (with_secure b2 c) (t0 :: to') subject text html _)
      as [[[msg msg_id]|e] w1]; [|reflexivity].
    assert (Hs : forall k x, fst <$> smtp_sends (trace (sent k x msg))
                             = (fst <$> smtp_sends (trace x)) ++ [msg]).
    { intros k x. unfold smtp_sends, sent. simpl. rewrite flat_map_app. simpl.
      now rewrite fmap_app. }
    repeat match goal with
           | |- context [guarded ?x] => destruct (guarded x) as [[? ?]|?]
           | |- context [is_Exception ?x] => destruct (is_Exception x)
           end; cbn [snd]; now rewrite !Hs.
Qed.

(** C7 (amended): a composed message carries two parts, the plain text
    and then the HTML alternative, exactly when [html] is truthy (a
    non-empty string); when [html] is absent or is the empty string it
    carries the single plain-text part.  The plain text is [text], or the
    empty string when [text] is absent. *)
Theorem html_alternative_parts to subject text html w msg msg_id w' :
  compose P c to subject text html w = (Return (msg, msg_id), w') ->
  (truthy html = true ->
     content_parts msg = [mkPart "plain" (py_or text (PyStr "")); mkPart "html" html]) /\
  (truthy html = false ->
     content_parts msg = [mkPart "plain" (py_or text (PyStr ""))]) /\
  (forall s, truthy (PyStr s) = false <-> s = EmptyString) /\
  truthy PyNone = false /\
  (forall s, py_or (PyStr s) (PyStr "") = PyStr s) /\
  py_or PyNone (PyStr "") = PyStr "".
Proof.
  intros H. apply compose_Return in H. destruct H as (_ & -> & _).
  unfold content_parts, composed_message. simpl.
  split; [intros ->; reflexivity|].
  split; [intros ->; reflexivity|].
  split; [|split; [reflexivity|split; [|reflexivity]]].
  - intros s. simpl. destruct s; simpl; split; congruence.
  - intros s. unfold py_or. simpl. destruct s; reflexivity.
Qed.

(** C10 (amended): composition (lines 50-63) runs outside the [try].
    When the mail-message library refuses a field, [send_email] raises
    that error, of whatever class, no record is returned and the
    transport is not called.  A Failure record is only ever built from an
    exception raised inside the guarded region, after composition has
    succeeded and the message has been handed to the transport: either
    the send raised it, or the send returned and decoding its response
    text raised it. *)
Theorem composition_errors_propagate to subject text html w :
  to <> [] ->
  (forall e w1,
     compose P c to subject text html (entered w to subject text html) = (Raise e, w1) ->
     send_email P c to subject text html w = (Raise e, w1) /\
     smtp_sends (trace w1) = smtp_sends (trace w) /\
     (header_refused P "From" (PyStr (from_addr c)) = Some e \/
      header_refused P "To" (PyStr (join ", " to)) = Some e \/
      header_refused P "Subject" subject = Some e \/
      header_refused P "Message-Id" (PyStr (format_msgid (msgid_source P (tick w)))) = Some e \/
      content_refused P (py_or text (PyStr "")) "plain" = Some e \/
      content_refused P html "html" = Some e)) /\
  (forall r w',
     send_email P c to subject text html w = (Return r, w') ->
     is_Failure r = true ->
     exists msg msg_id w1 e,
       compose P c to subject text html (entered w to subject text html)
         = (Return (msg, msg_id), w1) /\
       (smtp_send P (tick w1) msg (connect_params c (negb (use_tls c))) = Raise e \/
        exists code info,
          smtp_send P (tick w1) msg (connect_params c (negb (use_tls c)))
            = Return (code, info) /\
          info_has_decode info = true /\
          info_decode info = Raise e) /\
       is_Exception e = true /\
       r = failure_record msg_id to (exc_str e) /\
       smtp_sends (trace w') = smtp_sends (trace w) ++
                                 [(msg, connect_params c (negb (use_tls c)))]).
Proof.
  intros Hto. split.
  - intros e w1 Hc. split; [|split].
    + rewrite send_email_run by exact Hto. now rewrite Hc.
    + apply compose_Raise in Hc. destruct Hc as (Hs & _ & _). rewrite Hs.
      unfold smtp_sends, entered. simpl. rewrite flat_map_app. simpl.
      now rewrite app_nil_r.
    + apply compose_Raise in Hc. destruct Hc as (_ & _ & Hwhy). exact Hwhy.
  - intros r w' H HF. apply send_email_Return in H.
    destruct H as (_ & Hc & -> & Hcases).
    destruct Hcases as [(code & t & _ & ->) | (e & Hg & He & ->)]; [discriminate|].
    do 4 eexists. split; [exact Hc|].
    split.
    { cbn [tick composed_world]. unfold guarded, response_info in Hg.
      destruct (smtp_send P _ _ _) as [[code info]|e0];
        [|inversion Hg; subst; now left].
      right. exists code, info. split; [reflexivity|].
      destruct (info_has_decode info); [|discriminate].
      destruct (info_decode info); [discriminate|].
      inversion Hg; subst. split; reflexivity. }
    split; [exact He|].
    split; [reflexivity|].
    unfold smtp_sends, sent, composed_world. simpl. rewrite !flat_map_app. simpl.
    now rewrite !app_nil_r.
Qed.

End SenderFacts.

(* ===================================================================== *)
(** ** The gateway's checks *)
(* ===================================================================== *)

Section GatewayFacts.

Variable P : Platform.
Variable c : EmailClient.

Lemma serve_cons st req rest w :
  serve P st (req :: rest) w =
  answered (fst (fst (serve_request P st req w)))
           (serve P (snd (fst (serve_request P st req w))) rest
                    (snd (serve_request P st req w))).
Proof.
  simpl. destruct (serve_request P st req w) as [[r st'] w1]. simpl.
  destruct (serve P st' rest w1) as [[rs st2] w2]. reflexivity.
Qed.

Lemma str_items_fmap (l : list string) : str_items (PyStr <$> l) = l.
Proof.
  induction l as [|x l IH]; [reflexivity|].
  rewrite fmap_cons. cbn [str_items]. now rewrite IH.
Qed.

Lemma forallb_str_fmap (l : list string) : forallb isinstance_str (PyStr <$> l) = true.
Proof.
  induction l as [|x l IH]; [reflexivity|].
  rewrite fmap_cons. cbn [forallb isinstance_str andb]. exact IH.
Qed.

(** What the handler does once the name is right, by the shape of [to]. *)
Lemma handle_call_tool_send arguments w :
  handle_call_tool P c "send_email" arguments w =
  let to := py_or (dict_get arguments "to") (PyList []) in
  if is_str_list to
  then match send_email P c (str_items (list_items to))
               (arg_subject arguments) (arg_body arguments) PyNone w with
       | (Return result, w') => (Return [mkTextContent "text" (json_dumps result)], w')
       | (Raise e, w') => (Raise e, w')
       end
  else (Raise bad_to, w).
Proof.
  unfold handle_call_tool, is_str_list, arg_subject, arg_body. simpl.
  destruct (isinstance_list _); simpl; [|reflexivity].
  destruct (forallb _ _); simpl; [|reflexivity].
  unfold bind, ret. destruct (send_email _ _ _ _ _ _ _) as [[r|e] w']; reflexivity.
Qed.

(** C8: an invocation whose name is not [send_email] fails with the
    unknown-tool error; the world is left as it was, so the Mail Sender
    is not entered; the runtime answers with a protocol error for that
    call, stays in Ready and serves the requests that follow. *)
Theorem unknown_tool_rejected (name : string) (arguments : gmap string pyval) (w : World) :
  name <> "send_email" ->
  handle_call_tool P c name arguments w = (Raise (unknown_tool name), w) /\
  sender_calls (trace (snd (handle_call_tool P c name arguments w))) = sender_calls (trace w) /\
  serve_request P (Ready c) (CallTool name arguments) w =
    (Some (ProtocolError (unknown_tool name)), Ready c, w) /\
  forall rest,
    serve P (Ready c) (CallTool name arguments :: rest) w =
    answered (Some (ProtocolError (unknown_tool name))) (serve P (Ready c) rest w).
Proof.
  intros Hname.
  assert (Hrun : handle_call_tool P c name arguments w = (Raise (unknown_tool name), w)).
  { unfold handle_call_tool. apply String.eqb_neq in Hname. rewrite Hname. reflexivity. }
  assert (Hstep : serve_request P (Ready c) (CallTool name arguments) w =
                  (Some (ProtocolError (unknown_tool name)), Ready c, w)).
  { unfold serve_request. rewrite Hrun. reflexivity. }
  repeat split.
  - exact Hrun.
  - rewrite Hrun. reflexivity.
  - exact Hstep.
  - intros rest. rewrite serve_cons, Hstep. reflexivity.
Qed.

(** C4: with no recipient [send_email] raises the argument error at
    once: the only thing recorded is the entry into the Mail Sender, no
    message is created and no send is made.  An invocation without [to]
    reaches exactly this error; the runtime turns it into a protocol
    error for that call, stays in Ready and serves what follows. *)
Theorem empty_recipients_rejected :
  (forall subject text html w,
     send_email P c [] subject text html w =
       (Raise no_recipient, entered w [] subject text html) /\
     is_ValueError no_recipient = true /\
     messages_created (trace (entered w [] subject text html)) = messages_created (trace w) /\
     smtp_sends (trace (entered w [] subject text html)) = smtp_sends (trace w)) /\
  (forall arguments w,
     arguments !! "to" = None ->
     handle_call_tool P c "send_email" arguments w =
       (Raise no_recipient, entered w [] (arg_subject arguments) (arg_body arguments) PyNone) /\
     serve_request P (Ready c) (CallTool "send_email" arguments) w =
       (Some (ProtocolError no_recipient), Ready c,
        entered w [] (arg_subject arguments) (arg_body arguments) PyNone) /\
     forall rest,
       serve P (Ready c) (CallTool "send_email" arguments :: rest) w =
       answered (Some (ProtocolError no_recipient))
         (serve P (Ready c) rest
            (entered w [] (arg_subject arguments) (arg_body arguments) PyNone))).
Proof.
  split.
  - intros subject text html w. repeat split.
    + unfold messages_created, entered. simpl. rewrite flat_map_app. simpl.
      now rewrite app_nil_r.
    + unfold smtp_sends, entered. simpl. rewrite flat_map_app. simpl.
      now rewrite app_nil_r.
  - intros arguments w Hto.
    assert (Hrun : handle_call_tool P c "send_email" arguments w =
              (Raise no_recipient,
               entered w [] (arg_subject arguments) (arg_body arguments) PyNone)).
    { rewrite handle_call_tool_send. unfold dict_get. rewrite Hto. reflexivity. }
    assert (Hstep : serve_request P (Ready c) (CallTool "send_email" arguments) w =
              (Some (ProtocolError no_recipient), Ready c,
               entered w [] (arg_subject arguments) (arg_body arguments) PyNone)).
    { unfold serve_request. rewrite Hrun. reflexivity. }
    repeat split; [exact Hrun | exact Hstep |].
    intros rest. rewrite serve_cons, Hstep. reflexivity.
Qed.

(** C5 (amended): when [to] is present and is not a list of strings,
    the call fails with a [ValueError] and neither a message nor a send
    is made.  A truthy [to] is refused by the gateway's own check and
    the Mail Sender is not entered; a falsy one (None, False, 0, 0.0,
    the empty string, the empty dict) is replaced by the empty list and
    is refused by the Mail Sender's recipient check. *)
Theorem malformed_to_rejected (arguments : gmap string pyval) (v : pyval) (w : World) :
  arguments !! "to" = Some v ->
  is_str_list v = false ->
  (truthy v = true ->
     handle_call_tool P c "send_email" arguments w = (Raise bad_to, w) /\
     serve_request P (Ready c) (CallTool "send_email" arguments) w =
       (Some (ProtocolError bad_to), Ready c, w)) /\
  (truthy v = false ->
     handle_call_tool P c "send_email" arguments w =
       (Raise no_recipient,
        entered w [] (arg_subject arguments) (arg_body arguments) PyNone)) /\
  (exists e, fst (handle_call_tool P c "send_email" arguments w) = Raise e /\
             is_ValueError e = true) /\
  smtp_sends (trace (snd (handle_call_tool P c "send_email" arguments w)))
    = smtp_sends (trace w) /\
  messages_created (trace (snd (handle_call_tool P c "send_email" arguments w)))
    = messages_created (trace w).
Proof.
  intros Hto Hbad.
  assert (Hrun : handle_call_tool P c "send_email" arguments w =
            if truthy v then (Raise bad_to, w)
            else (Raise no_recipient,
                  entered w [] (arg_subject arguments) (arg_body arguments) PyNone)).
  { rewrite handle_call_tool_send. unfold dict_get. rewrite Hto. unfold py_or.
    destruct (truthy v); simpl; [now rewrite Hbad | reflexivity]. }
  split; [|split; [|split; [|split]]].
  - intros Ht. rewrite Ht in Hrun. split; [exact Hrun|].
    unfold serve_request. now rewrite Hrun.
  - intros Ht. now rewrite Ht in Hrun.
  - rewrite Hrun. destruct (truthy v); simpl; eauto.
  - rewrite Hrun. destruct (truthy v); simpl; [reflexivity|].
    unfold smtp_sends. rewrite flat_map_app. simpl. now rewrite app_nil_r.
  - rewrite Hrun. destruct (truthy v); simpl; [reflexivity|].
    unfold messages_created. rewrite flat_map_app. simpl. now rewrite app_nil_r.
Qed.

(** C1: when the transport send raises an [Exception], [send_email]
    returns the Failure record, and the gateway hands that record to the
    caller as the text of a normal result: the runtime's answer is a
    [CallResult], not a [ProtocolError], and the server stays in Ready. *)
Theorem transport_failure_is_payload :
  (forall to subject text html w msg msg_id w1 e,
     to <> [] ->
     compose P c to subject text html (entered w to subject text html)
       = (Return (msg, msg_id), w1) ->
     smtp_send P (tick w1) msg (connect_params c (negb (use_tls c))) = Raise e ->
     is_Exception e = true ->
     send_email P c to subject text html w =
       (Return (failure_record msg_id to (exc_str e)), sent c w1 msg) /\
     is_Failure (failure_record msg_id to (exc_str e)) = true) /\
  (forall arguments to w msg msg_id w1 e,
     arguments !! "to" = Some (PyList (PyStr <$> to)) ->
     to <> [] ->
     compose P c to (arg_subject arguments) (arg_body arguments) PyNone
             (entered w to (arg_subject arguments) (arg_body arguments) PyNone)
       = (Return (msg, msg_id), w1) ->
     smtp_send P (tick w1) msg (connect_params c (negb (use_tls c))) = Raise e ->
     is_Exception e = true ->
     handle_call_tool P c "send_email" arguments w =
       (Return [mkTextContent "text" (json_dumps (failure_record msg_id to (exc_str e)))],
        sent c w1 msg) /\
     serve_request P (Ready c) (CallTool "send_email" arguments) w =
       (Some (CallResult
                [mkTextContent "text" (json_dumps (failure_record msg_id to (exc_str e)))]),
        Ready c, sent c w1 msg)).
Proof.
  assert (Hsend : forall to subject text html w msg msg_id w1 e,
     to <> [] ->
     compose P c to subject text html (entered w to subject text html)
       = (Return (msg, msg_id), w1) ->
     smtp_send P (tick w1) msg (connect_params c (negb (use_tls c))) = Raise e ->
     is_Exception e = true ->
     send_email P c to subject text html w =
       (Return (failure_record msg_id to (exc_str e)), sent c w1 msg)).
  { intros to subject text html w msg msg_id w1 e Hto Hc Hs He.
    rewrite send_email_run by exact Hto. rewrite Hc, Hs. simpl. now rewrite He. }
  split.
  - intros to subject text html w msg msg_id w1 e Hto Hc Hs He.
    split; [eapply Hsend; eauto | reflexivity].
  - intros arguments to w msg msg_id w1 e Harg Hto Hc Hs He.
    assert (Hrun : handle_call_tool P c "send_email" arguments w =
       (Return [mkTextContent "text" (json_dumps (failure_record msg_id to (exc_str e)))],
        sent c w1 msg)).
    { rewrite handle_call_tool_send. unfold dict_get. rewrite Harg.
      assert (Htruthy : truthy (PyList (PyStr <$> to)) = true)
        by (destruct to; [congruence | reflexivity]).
      unfold py_or. rewrite Htruthy. cbv zeta.
      unfold is_str_list. cbn [isinstance_list list_items andb].
      rewrite forallb_str_fmap, str_items_fmap.
      now rewrite (Hsend _ _ _ _ _ _ _ _ _ Hto Hc Hs He). }
    split; [exact Hrun|]. unfold serve_request. now rewrite Hrun.
Qed.

End GatewayFacts.

(* ===================================================================== *)
(** ** Configuration from the environment *)
(* ===================================================================== *)

Lemma py_int_raises_ValueError (s : string) (e : exn) :
  py_int s = Raise e -> is_ValueError e = true.
Proof.
  unfold py_int.
  destruct (match strip_int (list_ascii_of_string s) with
            | [] => _ | _ :: _ => _ end) as [neg ds].
  destruct (int_unsigned ds) as [[v n]|].
  - destruct (int_max_str_digits <? n)%nat; intros H; inversion H; reflexivity.
  - intros H; inversion H; reflexivity.
Qed.

(** Construction fails only on the required variables; the port is what
    [int] gives, and 587 whenever [int] raises. *)
Lemma EmailClient_init_cases (environ : gmap string string) :
  EmailClient_init environ =
  if env_falsy (environ !! "SMTP_HOST")
  then Raise (mk_exn RuntimeError "SMTP_HOST is required")
  else if env_falsy (environ !! "SMTP_USER") || env_falsy (environ !! "SMTP_PASS")
  then Raise (mk_exn RuntimeError "SMTP_USER and SMTP_PASS are required")
  else Return
    {| host := default "" (environ !! "SMTP_HOST");
       port := match py_int (env_get_default environ "SMTP_PORT" "587") with
               | Return p => p
               | Raise _ => 587
               end;
       use_tls := String.eqb (lower (env_get_default environ "SMTP_SECURE" "false")) "true";
       username := default "" (environ !! "SMTP_USER");
       password := default "" (environ !! "SMTP_PASS");
       from_addr := if env_falsy (environ !! "SMTP_FROM")
                    then default "" (environ !! "SMTP_USER")
                    else default "" (environ !! "SMTP_FROM") |}.
Proof.
  unfold EmailClient_init.
  destruct (env_falsy (environ !! "SMTP_HOST")); [reflexivity|].
  destruct (py_int _) as [p|e] eqn:Hp; [reflexivity|].
  rewrite (py_int_raises_ValueError _ _ Hp). reflexivity.
Qed.

(** C9: the port is the integer read from SMTP_PORT; it is 587 when the
    variable is not set and 587 for every value that [int] does not
    parse.  The value of SMTP_PORT never makes construction fail:
    construction succeeds exactly when the three required variables are
    set, and the only errors are the [RuntimeError]s about them. *)
Theorem port_defaults_to_587 (environ : gmap string string) :
  ((exists c, EmailClient_init environ = Return c) <-> required_present environ = true) /\
  (forall c, EmailClient_init environ = Return c ->
     (environ !! "SMTP_PORT" = None -> port c = 587) /\
     (forall s, environ !! "SMTP_PORT" = Some s -> raises (py_int s) = true -> port c = 587) /\
     (forall s p, environ !! "SMTP_PORT" = Some s -> py_int s = Return p -> port c = p)) /\
  (forall e, EmailClient_init environ = Raise e -> exc_type e = RuntimeError).
Proof.
  rewrite EmailClient_init_cases. unfold required_present.
  destruct (env_falsy (environ !! "SMTP_HOST")); simpl.
  { split; [split; [intros [c0 H]; discriminate | discriminate]|].
    split; [discriminate|]. intros e H; inversion H; reflexivity. }
  destruct (env_falsy (environ !! "SMTP_USER")); simpl.
  { split; [split; [intros [c0 H]; discriminate | discriminate]|].
    split; [discriminate|]. intros e H; inversion H; reflexivity. }
  destruct (env_falsy (environ !! "SMTP_PASS")); simpl.
  { split; [split; [intros [c0 H]; discriminate | discriminate]|].
    split; [discriminate|]. intros e H; inversion H; reflexivity. }
  split; [split; [reflexivity | eauto]|].
  split; [|discriminate].
  intros c0 H. inversion H; subst; clear H. simpl. unfold env_get_default.
  split; [|split].
  - intros ->. reflexivity.
  - intros s ->. destruct (py_int s); [discriminate | reflexivity].
  - intros s p -> ->. reflexivity.
Qed.

(* ===================================================================== *)
(** ** Worked instances *)
(* ===================================================================== *)

(** The builtins on the inputs their documentation distinguishes. *)
Example py_int_parses :
  py_int "587" = Return 587 /\ py_int " 25 " = Return 25 /\ py_int "+5" = Return 5 /\
  py_int "-1" = Return (-1) /\ py_int "1_000" = Return 1000 /\ py_int "00" = Return 0 /\
  py_int (String (ascii_of_N 9) (String "7" (String (ascii_of_N 10) EmptyString))) = Return 7 /\
  py_int (String (ascii_of_N 160) "5") = Return 5.
Proof. repeat split. Qed.

Example py_int_refuses :
  forallb (fun s => raises (py_int s))
    [""; "abc"; "5.0"; "0x1F"; "1__0"; "_1"; "1_"; "+ 5"; "--5"; "+"; "-"; " "; "+_5";
     String "5" (String (ascii_of_N 28) EmptyString);
     String (ascii_of_N 178) EmptyString] = true.
Proof. reflexivity. Qed.

Example splitlines_len_examples :
  splitlines_len "Hi" = 1%nat /\ splitlines_len "" = 0%nat /\
  splitlines_len (String "a" (String (ascii_of_N 10) EmptyString)) = 1%nat /\
  splitlines_len (String "a" (String (ascii_of_N 10) "b")) = 2%nat /\
  splitlines_len (String "a" (String (ascii_of_N 13) (String (ascii_of_N 10) "b"))) = 2%nat /\
  splitlines_len (String "a" (String (ascii_of_N 31) "b")) = 1%nat.
Proof. repeat split. Qed.

Example lower_examples :
  lower "TRUE" = "true" /\ lower "True" = "true" /\ lower "yes" = "yes" /\
  lower (String (ascii_of_N 192) (String (ascii_of_N 215) EmptyString))
  = String (ascii_of_N 224) (String (ascii_of_N 215) EmptyString).
Proof. repeat split. Qed.

Example json_dumps_examples :
  json_dumps (PyList [PyInt (-3); PyNone; PyBool true; PyList []]) = "[-3, null, true, []]" /\
  json_dumps (PyDict [("a", PyInt 1); ("b", PyStr "x")])
  = "{" +:+ String dquote "a" +:+ String dquote ": 1, " +:+ String dquote "b"
        +:+ String dquote ": " +:+ String dquote "x" +:+ String dquote "}" /\
  json_escape (String dquote (String backslash (String (ascii_of_N 10) (String (ascii_of_N 1)
                 (String (ascii_of_N 233) (String (ascii_of_N 127) "x"))))))
  = String backslash (String dquote (String backslash (String backslash
      "\n\u0001\u00e9\u007fx"))).
Proof. repeat split. Qed.

(** Section 8, first scenario: the transport accepts. *)
Example scenario_accept :
  send_email accepting client1 to1 (PyStr "Hi") (PyStr "Hello") PyNone world0 =
  (Return (success_record id1 to1 (PyInt 250) "2.0.0 OK"), sent client1 composed1 msg1).
Proof. reflexivity. Qed.

(** Section 8, second scenario: the transport raises an authentication
    failure. *)
Example scenario_auth_failure :
  send_email (failing auth_error) client1 to1 (PyStr "Hi") (PyStr "Hello") PyNone world0 =
  (Return (failure_record id1 to1 "(535, 'Authentication failed')"),
   sent client1 composed1 msg1).
Proof. reflexivity. Qed.

(** The transport raises an authentication failure: the call and the
    gateway's answer. *)
Lemma transport_failure_is_payload_witness :
  send_email (failing auth_error) client1 to1 (PyStr "Hi") (PyStr "Hello") PyNone world0 =
    (Return (failure_record id1 to1 (exc_str auth_error)), sent client1 composed1 msg1) /\
  serve_request (failing auth_error) (Ready client1) (CallTool "send_email" args1) world0 =
    (Some (CallResult
             [mkTextContent "text"
                (json_dumps (failure_record id1 to1 (exc_str auth_error)))]),
     Ready client1, sent client1 composed1 msg1).
Proof.
  destruct (transport_failure_is_payload (failing auth_error) client1) as [Hs Hg].
  split.
  - apply (Hs to1 (PyStr "Hi") (PyStr "Hello") PyNone world0 msg1 id1 composed1 auth_error);
      [discriminate | reflexivity | reflexivity | reflexivity].
  - apply (Hg args1 to1 world0 msg1 id1 composed1 auth_error);
      [reflexivity | discriminate | reflexivity | reflexivity | reflexivity].
Defined.



(** C3, as stated, fails: a transport error whose text is empty gives a
    Failure record whose [error] is the empty string. *)
Lemma failure_error_may_be_empty :
  send_email (failing silent_error) client1 to1 (PyStr "Hi") (PyStr "Hello") PyNone world0 =
    (Return (failure_record id1 to1 EmptyString), sent client1 composed1 msg1) /\
  is_Exception silent_error = true /\
  is_Failure (failure_record id1 to1 EmptyString) = true /\
  result_get "error" (failure_record id1 to1 EmptyString) = Some (PyStr EmptyString).
Proof. repeat split. Qed.

Lemma result_partitions_recipients_witness :
  result_get "rejected" (failure_record id1 to1 EmptyString) = Some (PyList (PyStr <$> to1)) /\
  result_get "accepted" (failure_record id1 to1 EmptyString) = Some (PyList []) /\
  result_get "accepted" (success_record id1 to1 (PyInt 250) "2.0.0 OK")
    = Some (PyList (PyStr <$> to1)) /\
  result_get "rejected" (success_record id1 to1 (PyInt 250) "2.0.0 OK") = Some (PyList []).
Proof.
  destruct (result_partitions_recipients (failing silent_error) client1 to1
              (PyStr "Hi") (PyStr "Hello") PyNone world0
              (failure_record id1 to1 EmptyString) (sent client1 composed1 msg1) eq_refl)
    as (_ & Hf & _).
  destruct (Hf eq_refl) as (Hr & Ha & _).
  destruct (result_partitions_recipients accepting client1 to1
              (PyStr "Hi") (PyStr "Hello") PyNone world0
              (success_record id1 to1 (PyInt 250) "2.0.0 OK") (sent client1 composed1 msg1)
              eq_refl)
    as (Hs & _ & _).
  destruct (Hs eq_refl) as (Ha' & Hr').
  exact (conj Hr (conj Ha (conj Ha' Hr'))).
Defined.

Lemma empty_recipients_rejected_witness :
  serve accepting (Ready client1)
        [CallTool "send_email" args0; CallTool "send_email" args1] world0 =
  answered (Some (ProtocolError no_recipient))
    (serve accepting (Ready client1) [CallTool "send_email" args1]
       (entered world0 [] (PyStr "Hi") (PyStr "Hello") PyNone)) /\
  fst (fst (serve accepting (Ready client1)
              [CallTool "send_email" args0; CallTool "send_email" args1] world0))
  = [Some (ProtocolError no_recipient);
     Some (CallResult
             [mkTextContent "text"
                (json_dumps (success_record id1 to1 (PyInt 250) "2.0.0 OK"))])].
Proof.
  destruct (empty_recipients_rejected accepting client1) as [_ Hg].
  destruct (Hg args0 world0 eq_refl) as (_ & _ & Hserve).
  split; [exact (Hserve [CallTool "send_email" args1])|].
  rewrite (Hserve [CallTool "send_email" args1]). reflexivity.
Defined.

(** C5, as stated, fails: with [to] set to the number 0 the argument is
    present and is no list of strings, yet the Mail Sender is entered
    (with no recipient) and the error is its own, not the gateway's. *)
Lemma falsy_to_reaches_sender :
  (<["to" := PyInt 0]> args1 : gmap string pyval) !! "to" = Some (PyInt 0) /\
  is_str_list (PyInt 0) = false /\
  handle_call_tool accepting client1 "send_email" (<["to" := PyInt 0]> args1) world0 =
    (Raise no_recipient, entered world0 [] (PyStr "Hi") (PyStr "Hello") PyNone) /\
  sender_calls (trace (snd (handle_call_tool accepting client1 "send_email"
                              (<["to" := PyInt 0]> args1) world0))) = [[]] /\
  sender_calls (trace world0) = [] /\
  no_recipient <> bad_to.
Proof. repeat split. discriminate. Qed.

Lemma malformed_to_rejected_witness :
  handle_call_tool accepting client1 "send_email"
    (<["to" := PyList [PyStr "b@example.com"; PyInt 7]]> args1) world0 = (Raise bad_to, world0) /\
  handle_call_tool accepting client1 "send_email" (<["to" := PyInt 0]> args1) world0 =
    (Raise no_recipient, entered world0 [] (PyStr "Hi") (PyStr "Hello") PyNone).
Proof.
  assert (Hmixed : (<["to" := PyList [PyStr "b@example.com"; PyInt 7]]> args1
                      : gmap string pyval) !! "to"
                   = Some (PyList [PyStr "b@example.com"; PyInt 7])) by reflexivity.
  assert (Hzero : (<["to" := PyInt 0]> args1 : gmap string pyval) !! "to" = Some (PyInt 0))
    by reflexivity.
  split.
  - destruct (malformed_to_rejected accepting client1 _ _ world0 Hmixed eq_refl) as (Ht & _).
    exact (proj1 (Ht eq_refl)).
  - destruct (malformed_to_rejected accepting client1 _ _ world0 Hzero eq_refl)
      as (_ & Hf & _).
    exact (Hf eq_refl).
Defined.

Lemma secure_flag_selects_mode_witness :
  mode_of (connect_params client1 (negb (use_tls client1))) = Some StartTLS /\
  mode_of (connect_params (with_secure true client1)
             (negb (use_tls (with_secure true client1)))) = Some ImplicitTLS /\
  compose accepting (with_secure true client1) to1 (PyStr "Hi") (PyStr "Hello") PyNone world0
  = compose accepting (with_secure false client1) to1 (PyStr "Hi") (PyStr "Hello") PyNone world0.
Proof.
  split; [exact (proj1 (secure_flag_selects_mode accepting client1))|].
  split; [exact (proj1 (secure_flag_selects_mode accepting (with_secure true client1)))|].
  destruct (secure_flag_selects_mode accepting client1) as (_ & _ & Hc & _).
  apply Hc.
Defined.

(** C7, as stated, fails: an [html] argument that is present and is the
    empty string gives a message with the single plain-text part. *)
Lemma empty_html_single_part :
  compose accepting client1 to1 (PyStr "Hi") (PyStr "Hello") (PyStr EmptyString) world0 =
    (Return (composed_message client1 to1 (PyStr "Hi") (PyStr "Hello") (PyStr EmptyString) id1,
             id1),
     {| tick := 1; trace := [CallEmailMessage; CallMakeMsgid id1] |}) /\
  PyStr EmptyString <> PyNone /\
  content_parts
    (composed_message client1 to1 (PyStr "Hi") (PyStr "Hello") (PyStr EmptyString) id1)
  = [mkPart "plain" (PyStr "Hello")].
Proof. repeat split. discriminate. Qed.

Lemma html_alternative_parts_witness :
  content_parts
    (composed_message client1 to1 (PyStr "Hi") (PyStr "Hello") (PyStr "<b>Hello</b>") id1)
  = [mkPart "plain" (PyStr "Hello"); mkPart "html" (PyStr "<b>Hello</b>")] /\
  content_parts (composed_message client1 to1 (PyStr "Hi") PyNone PyNone id1)
  = [mkPart "plain" (PyStr EmptyString)].
Proof.
  split.
  - destruct (html_alternative_parts accepting client1 to1 (PyStr "Hi") (PyStr "Hello")
                (PyStr "<b>Hello</b>") world0
                (composed_message client1 to1 (PyStr "Hi") (PyStr "Hello")
                   (PyStr "<b>Hello</b>") id1)
                id1 {| tick := 1; trace := [CallEmailMessage; CallMakeMsgid id1] |} eq_refl)
      as (Ht & _).
    exact (Ht eq_refl).
  - destruct (html_alternative_parts
                {| header_refused := crlf_policy; content_refused := fun _ _ => None;
                   msgid_source := sample_source;
                   smtp_send := smtp_send accepting |}
                client1 to1 (PyStr "Hi") PyNone PyNone world0
                (composed_message client1 to1 (PyStr "Hi") PyNone PyNone id1)
                id1 {| tick := 1; trace := [CallEmailMessage; CallMakeMsgid id1] |} eq_refl)
      as (_ & Hf & _).
    exact (Hf eq_refl).
Defined.

Lemma unknown_tool_rejected_witness :
  serve accepting (Ready client1)
        [CallTool "send_sms" args1; CallTool "send_email" args1] world0 =
  answered (Some (ProtocolError (unknown_tool "send_sms")))
    (serve accepting (Ready client1) [CallTool "send_email" args1] world0) /\
  handle_call_tool accepting client1 "send_sms" args1 world0
  = (Raise (mk_exn ValueError "Unknown tool: send_sms"), world0).
Proof.
  assert (Hname : "send_sms" <> "send_email") by discriminate.
  destruct (unknown_tool_rejected accepting client1 "send_sms" args1 world0 Hname)
    as (Hrun & _ & _ & Hserve).
  split; [apply Hserve | exact Hrun].
Defined.

Lemma port_defaults_to_587_witness :
  EmailClient_init (<["SMTP_PORT" := "5o7"]> env1) = Return client1 /\
  port client1 = 587 /\
  raises (py_int "5o7") = true.
Proof.
  assert (Hinit : EmailClient_init (<["SMTP_PORT" := "5o7"]> env1) = Return client1)
    by reflexivity.
  destruct (port_defaults_to_587 (<["SMTP_PORT" := "5o7"]> env1)) as (_ & Hport & _).
  destruct (Hport client1 Hinit) as (_ & Hbad & _).
  split; [exact Hinit|]. split; [|reflexivity].
  apply (Hbad "5o7"); reflexivity.
Defined.

(** C10, as stated, fails: the transport send returns, the decoding of
    its response text raises, and the call returns a Failure record. *)
Lemma failure_without_transport_error :
  smtp_send undecodable (tick composed1) msg1 (connect_params client1 (negb (use_tls client1)))
    = Return (PyInt 250, {| info_has_decode := true; info_decode := Raise decode_error;
                            info_str := "b'...'" |}) /\
  send_email undecodable client1 to1 (PyStr "Hi") (PyStr "Hello") PyNone world0 =
    (Return (failure_record id1 to1 (exc_str decode_error)), sent client1 composed1 msg1) /\
  is_Failure (failure_record id1 to1 (exc_str decode_error)) = true.
Proof. repeat split. Qed.

(** A subject of two lines is refused by the library: the error is
    raised although the transport would have answered. *)
Lemma composition_errors_propagate_witness :
  send_email (failing auth_error) client1 to1 two_line_subject (PyStr "Hello") PyNone world0 =
  (Raise (mk_exn ValueError
            "Header values may not contain linefeed or carriage return characters"),
   {| tick := 0;
      trace := [CallSendEmail to1 two_line_subject (PyStr "Hello") PyNone;
                CallEmailMessage] |}).
Proof.
  assert (Hto : to1 <> []) by discriminate.
  destruct (composition_errors_propagate (failing auth_error) client1 to1 two_line_subject
              (PyStr "Hello") PyNone world0 Hto) as (Hraise & _).
  exact (proj1 (Hraise _ _ eq_refl)).
Defined.

(* ===================================================================== *)
(** ** Further properties: configuration *)
(* ===================================================================== *)

(** X1: construction fails on the required variables only, host first:
    without SMTP_HOST the error is the host error whatever else is set;
    with it, a missing or empty SMTP_USER or SMTP_PASS gives the
    credentials error, and no value of SMTP_PORT gets in the way. *)
Theorem config_errors (environ : gmap string string) :
  (env_falsy (environ !! "SMTP_HOST") = true ->
   EmailClient_init environ = Raise (mk_exn RuntimeError "SMTP_HOST is required")) /\
  (env_falsy (environ !! "SMTP_HOST") = false ->
   env_falsy (environ !! "SMTP_USER") || env_falsy (environ !! "SMTP_PASS") = true ->
   EmailClient_init environ
   = Raise (mk_exn RuntimeError "SMTP_USER and SMTP_PASS are required")).
Proof.
  rewrite EmailClient_init_cases. split.
  - intros ->. reflexivity.
  - intros -> ->. reflexivity.
Qed.

(** X2: a constructed client holds the environment's host, user and
    password, none of them empty; its sender address is SMTP_FROM when
    that is set and not empty and the user name otherwise, so it is
    never empty either. *)
Theorem config_fields (environ : gmap string string) (c : EmailClient) :
  EmailClient_init environ = Return c ->
  environ !! "SMTP_HOST" = Some (host c) /\
  environ !! "SMTP_USER" = Some (username c) /\
  environ !! "SMTP_PASS" = Some (password c) /\
  host c <> EmptyString /\ username c <> EmptyString /\ password c <> EmptyString /\
  from_addr c <> EmptyString /\
  (forall f, environ !! "SMTP_FROM" = Some f -> f <> EmptyString -> from_addr c = f) /\
  (env_falsy (environ !! "SMTP_FROM") = true -> from_addr c = username c).
Proof.
  rewrite EmailClient_init_cases.
  assert (Hfalsy : forall o : option string, env_falsy o = false ->
            exists v, o = Some v /\ v <> EmptyString).
  { intros [v|]; simpl; [|discriminate]. intros Hv. exists v. split; [reflexivity|].
    intros ->. discriminate. }
  destruct (env_falsy (environ !! "SMTP_HOST")) eqn:Hh; [discriminate|].
  destruct (env_falsy (environ !! "SMTP_USER")) eqn:Hu; [discriminate|].
  destruct (env_falsy (environ !! "SMTP_PASS")) eqn:Hp; [discriminate|].
  simpl. intros H. inversion H; subst; clear H. simpl.
  destruct (Hfalsy _ Hh) as (h & -> & Hh').
  destruct (Hfalsy _ Hu) as (u & -> & Hu').
  destruct (Hfalsy _ Hp) as (pw & -> & Hp').
  simpl. repeat (split; [first [reflexivity | assumption]|]).
  destruct (environ !! "SMTP_FROM") as [f|] eqn:Hf; simpl.
  - destruct (String.eqb_spec f EmptyString) as [->|Hne]; simpl.
    + split; [assumption|]. split; [intros f' Hf' Hne'; congruence | reflexivity].
    + split; [assumption|]. split; [intros f' Hf' _; congruence | discriminate].
  - split; [assumption|]. split; [discriminate | reflexivity].
Qed.

Lemma lower_char_letter (c lo up : ascii) :
  (lo = "t" /\ up = "T" \/ lo = "r" /\ up = "R" \/ lo = "u" /\ up = "U" \/
   lo = "e" /\ up = "E")%char ->
  Ascii.eqb (lower_char c) lo = Ascii.eqb c lo || Ascii.eqb c up.
Proof.
  intros [[-> ->] | [[-> ->] | [[-> ->] | [-> ->]]]];
    destruct c as [[] [] [] [] [] [] [] []]; reflexivity.
Qed.

Lemma lower_is_true (s : string) :
  String.eqb (lower s) "true" = is_true_spelling s.
Proof.
  destruct s as [|a [|b [|d [|e [|x r]]]]]; try reflexivity.
  - simpl. destruct (Ascii.eqb (lower_char a) "t"); reflexivity.
  - simpl. destruct (Ascii.eqb (lower_char a) "t"); [|reflexivity].
    destruct (Ascii.eqb (lower_char b) "r"); reflexivity.
  - simpl. destruct (Ascii.eqb (lower_char a) "t"); [|reflexivity].
    destruct (Ascii.eqb (lower_char b) "r"); [|reflexivity].
    destruct (Ascii.eqb (lower_char d) "u"); reflexivity.
  - cbn [lower String.eqb is_true_spelling].
    rewrite (lower_char_letter a "t" "T"), (lower_char_letter b "r" "R"),
      (lower_char_letter d "u" "U"), (lower_char_letter e "e" "E") by tauto.
    destruct (Ascii.eqb a "t" || Ascii.eqb a "T"); [|reflexivity].
    destruct (Ascii.eqb b "r" || Ascii.eqb b "R"); [|reflexivity].
    destruct (Ascii.eqb d "u" || Ascii.eqb d "U"); [|reflexivity].
    destruct (Ascii.eqb e "e" || Ascii.eqb e "E"); reflexivity.
  - cbn [lower String.eqb is_true_spelling].
    destruct (Ascii.eqb (lower_char a) "t"); [|reflexivity].
    destruct (Ascii.eqb (lower_char b) "r"); [|reflexivity].
    destruct (Ascii.eqb (lower_char d) "u"); [|reflexivity].
    destruct (Ascii.eqb (lower_char e) "e"); reflexivity.
Qed.

(** X3: implicit TLS is switched on exactly when SMTP_SECURE is set to
    [true] in some mix of upper and lower case; unset, empty or any
    other text, it stays off. *)
Theorem secure_only_for_true (environ : gmap string string) (c : EmailClient) :
  EmailClient_init environ = Return c ->
  (environ !! "SMTP_SECURE" = None -> use_tls c = false) /\
  (forall s, environ !! "SMTP_SECURE" = Some s -> use_tls c = is_true_spelling s).
Proof.
  rewrite EmailClient_init_cases.
  destruct (env_falsy (environ !! "SMTP_HOST")); [discriminate|].
  destruct (_ || _); [discriminate|].
  intros H. inversion H; subst; clear H. simpl. unfold env_get_default. split.
  - intros ->. reflexivity.
  - intros s ->. apply lower_is_true.
Qed.

(** *** The port as decimal text *)

Lemma uint_val_of_uint_acc (d : Decimal.uint) (p : positive) :
  uint_val d (Z.pos p) = Z.pos (Pos.of_uint_acc d p).
Proof.
  revert p. induction d; intros p; simpl; [reflexivity| ..];
    rewrite <- IHd; f_equal; lia.
Qed.

Lemma uint_val_of_uint (d : Decimal.uint) : uint_val d 0 = Z.of_N (Pos.of_uint d).
Proof.
  induction d; simpl; try reflexivity; try exact IHd;
    apply (uint_val_of_uint_acc d).
Qed.

Lemma int_digits_uint (d : Decimal.uint) (acc : Z) (n : nat) :
  int_digits (uint_chars d) acc n = Some (uint_val d acc, (n + Decimal.nb_digits d)%nat).
Proof.
  unfold uint_chars. revert acc n.
  induction d; intros acc n; simpl;
    [now rewrite Nat.add_0_r | ..];
    rewrite IHd; do 2 f_equal; lia.
Qed.

Lemma int_unsigned_uint (d : Decimal.uint) :
  d <> Decimal.Nil ->
  int_unsigned (uint_chars d) = Some (uint_val d 0, Decimal.nb_digits d).
Proof.
  intros Hd. destruct d; [congruence| ..];
    unfold uint_chars; simpl; apply (int_digits_uint d).
Qed.

Lemma uint_chars_no_space (d : Decimal.uint) :
  Forall (fun ch => is_int_space ch = false) (uint_chars d).
Proof. unfold uint_chars. induction d; simpl; constructor; auto. Qed.

Lemma uint_chars_length (d : Decimal.uint) : length (uint_chars d) = Decimal.nb_digits d.
Proof. unfold uint_chars. induction d; simpl; auto. Qed.

Lemma lstrip_int_no_space (cs : list ascii) :
  Forall (fun ch => is_int_space ch = false) cs -> lstrip_int cs = cs.
Proof. intros [|ch r Hc _]; simpl; [reflexivity | now rewrite Hc]. Qed.

Lemma strip_int_no_space (cs : list ascii) :
  Forall (fun ch => is_int_space ch = false) cs -> strip_int cs = cs.
Proof.
  intros H. unfold strip_int. rewrite (lstrip_int_no_space cs H).
  rewrite lstrip_int_no_space by now apply Forall_rev.
  apply rev_involutive.
Qed.

Lemma list_ascii_length (s : string) : length (list_ascii_of_string s) = String.length s.
Proof. induction s; simpl; auto. Qed.

(** [int] reads back the decimal text of an integer, up to the digit
    limit. *)
Lemma py_int_dec (z : Z) :
  (String.length (dec z) <= int_max_str_digits)%nat -> py_int (dec z) = Return z.
Proof.
  destruct z as [|p|p]; [reflexivity| |]; intros Hlen.
  - assert (Hd : dec (Z.pos p) = NilEmpty.string_of_uint (Pos.to_uint p)).
    { unfold dec. simpl. unfold NilZero.string_of_uint.
      pose proof (DecimalPos.Unsigned.to_uint_nonnil p).
      destruct (Pos.to_uint p); [congruence | reflexivity ..]. }
    rewrite Hd in *. unfold py_int.
    change (list_ascii_of_string (NilEmpty.string_of_uint (Pos.to_uint p)))
      with (uint_chars (Pos.to_uint p)).
    rewrite strip_int_no_space by apply uint_chars_no_space.
    pose proof (DecimalPos.Unsigned.to_uint_nonnil p) as Hnil.
    pose proof (int_unsigned_uint _ Hnil) as Hu.
    rewrite <- list_ascii_length in Hlen.
    change (list_ascii_of_string (NilEmpty.string_of_uint (Pos.to_uint p)))
      with (uint_chars (Pos.to_uint p)) in Hlen.
    rewrite uint_chars_length in Hlen.
    rewrite uint_val_of_uint, DecimalPos.Unsigned.of_to in Hu.
    assert (Hlim : (int_max_str_digits <? Decimal.nb_digits (Pos.to_uint p))%nat = false)
      by (apply Nat.ltb_ge; exact Hlen).
    destruct (Pos.to_uint p) eqn:E; [congruence| ..];
      unfold uint_chars in *; simpl in Hu |- *; rewrite Hu;
      simpl in Hlim; rewrite Hlim; reflexivity.
  - assert (Hd : dec (Z.neg p) = String "-" (NilEmpty.string_of_uint (Pos.to_uint p))).
    { unfold dec. simpl. unfold NilZero.string_of_uint.
      pose proof (DecimalPos.Unsigned.to_uint_nonnil p).
      destruct (Pos.to_uint p); [congruence | reflexivity ..]. }
    rewrite Hd in *. unfold py_int.
    change (list_ascii_of_string (String "-" (NilEmpty.string_of_uint (Pos.to_uint p))))
      with ("-"%char :: uint_chars (Pos.to_uint p)).
    rewrite strip_int_no_space
      by (constructor; [reflexivity | apply uint_chars_no_space]).
    pose proof (DecimalPos.Unsigned.to_uint_nonnil p) as Hnil.
    pose proof (int_unsigned_uint _ Hnil) as Hu.
    simpl in Hlen. rewrite <- list_ascii_length in Hlen.
    change (list_ascii_of_string (NilEmpty.string_of_uint (Pos.to_uint p)))
      with (uint_chars (Pos.to_uint p)) in Hlen.
    rewrite uint_chars_length in Hlen.
    rewrite uint_val_of_uint, DecimalPos.Unsigned.of_to in Hu.
    assert (Hlim : (int_max_str_digits <? Decimal.nb_digits (Pos.to_uint p))%nat = false)
      by (apply Nat.ltb_ge; lia).
    change (Ascii.eqb "-" "-") with true. cbv iota beta.
    rewrite Hu, Hlim. reflexivity.
Qed.

(** X4: a port written in decimal is read back as that number: with
    SMTP_PORT set to the decimal text of [z] (of at most 4300 digits) the
    constructed client has port [z], whatever its sign or size. *)
Theorem port_read_back (environ : gmap string string) (c : EmailClient) (z : Z) :
  EmailClient_init environ = Return c ->
  environ !! "SMTP_PORT" = Some (dec z) ->
  (String.length (dec z) <= int_max_str_digits)%nat ->
  port c = z.
Proof.
  rewrite EmailClient_init_cases. intros Hinit Hport Hlen.
  destruct (env_falsy (environ !! "SMTP_HOST")); [discriminate|].
  destruct (_ || _); [discriminate|].
  inversion Hinit; subst; clear Hinit. simpl. unfold env_get_default.
  now rewrite Hport, (py_int_dec z Hlen).
Qed.

(* ===================================================================== *)
(** ** Further properties: the Mail Sender *)
(* ===================================================================== *)

Section SenderMore.

Variable P : Platform.
Variable c : EmailClient.

(** The one send a call can make, with its message. *)
Lemma send_email_sends_exact to subject text html w :
  exists l,
    smtp_sends (trace (snd (send_email P c to subject text html w)))
      = smtp_sends (trace w) ++ l /\
    (l = [] \/
     l = [(composed_message c to subject text html (format_msgid (msgid_source P (tick w))),
           connect_params c (negb (use_tls c)))]).
Proof.
  destruct to as [|t0 to'].
  - exists []. rewrite send_email_empty. unfold smtp_sends, entered. simpl.
    rewrite flat_map_app. simpl. auto.
  - rewrite send_email_run by discriminate.
    destruct (compose P c (t0 :: to') subject text html _) as [[[msg msg_id]|e] w1] eqn:Hc.
    + apply compose_Return in Hc. destruct Hc as (Hid & Hmsg & Hw1). simpl in Hid.
      subst msg_id msg.
      eexists. split; [|right; reflexivity].
      assert (Hs : smtp_sends (trace (sent c w1
                     (composed_message c (t0 :: to') subject text html
                        (format_msgid (msgid_source P (tick w)))))) =
                   smtp_sends (trace w) ++
                   [(composed_message c (t0 :: to') subject text html
                       (format_msgid (msgid_source P (tick w))),
                     connect_params c (negb (use_tls c)))]).
      { subst w1. unfold smtp_sends, sent, entered. simpl.
        rewrite !flat_map_app. simpl. now rewrite !app_nil_r. }
      destruct (guarded _) as [[code t]|e]; [exact Hs|].
      destruct (is_Exception e); exact Hs.
    + apply compose_Raise in Hc. destruct Hc as (Hs & _ & _).
      exists []. split; [|auto]. simpl. rewrite Hs.
      unfold smtp_sends, entered. simpl. rewrite flat_map_app. simpl. reflexivity.
Qed.

(** X5: when the transport accepts, the Success record carries the code
    it returned, untouched, and as [responseInfo] the decoded text when
    the info object can be decoded and [str(info)] when it cannot. *)
Theorem success_echoes_reply to subject text html w msg msg_id w1 code info :
  to <> [] ->
  compose P c to subject text html (entered w to subject text html)
    = (Return (msg, msg_id), w1) ->
  smtp_send P (tick w1) msg (connect_params c (negb (use_tls c))) = Return (code, info) ->
  (info_has_decode info = false ->
   send_email P c to subject text html w =
     (Return (success_record msg_id to code (info_str info)), sent c w1 msg)) /\
  (forall t, info_has_decode info = true -> info_decode info = Return t ->
   send_email P c to subject text html w =
     (Return (success_record msg_id to code t), sent c w1 msg)).
Proof.
  intros Hto Hc Hs. split.
  - intros Hd. rewrite send_email_run by exact Hto. rewrite Hc, Hs.
    unfold guarded, response_info. now rewrite Hd.
  - intros t Hd Ht. rewrite send_email_run by exact Hto. rewrite Hc, Hs.
    unfold guarded, response_info. now rewrite Hd, Ht.
Qed.

(** X6: the response text is decoded inside the [try]: when the
    transport has accepted the message but [info.decode()] raises an
    [Exception], the call returns the Failure record with every
    recipient rejected, although the send has been made. *)
Theorem undecodable_reply_is_failure to subject text html w msg msg_id w1 code info e :
  to <> [] ->
  compose P c to subject text html (entered w to subject text html)
    = (Return (msg, msg_id), w1) ->
  smtp_send P (tick w1) msg (connect_params c (negb (use_tls c))) = Return (code, info) ->
  info_has_decode info = true ->
  info_decode info = Raise e ->
  is_Exception e = true ->
  send_email P c to subject text html w =
    (Return (failure_record msg_id to (exc_str e)), sent c w1 msg) /\
  smtp_sends (trace (sent c w1 msg)) =
    smtp_sends (trace w) ++ [(msg, connect_params c (negb (use_tls c)))].
Proof.
  intros Hto Hc Hs Hd He Hexc. split.
  - rewrite send_email_run by exact Hto. rewrite Hc, Hs.
    unfold guarded, response_info. now rewrite Hd, He, Hexc.
  - apply compose_Return in Hc. destruct Hc as (_ & _ & ->).
    unfold smtp_sends, sent, entered. simpl. rewrite !flat_map_app. simpl.
    now rewrite !app_nil_r.
Qed.

(** X7: [except Exception] lets through what is no [Exception]: when the
    send, or the decoding of its response, raises such a signal (a
    cancellation, an interrupt), [send_email] raises it and returns no
    record. *)
Theorem non_exception_propagates to subject text html w msg msg_id w1 e :
  to <> [] ->
  compose P c to subject text html (entered w to subject text html)
    = (Return (msg, msg_id), w1) ->
  guarded (smtp_send P (tick w1) msg (connect_params c (negb (use_tls c)))) = Raise e ->
  is_Exception e = false ->
  send_email P c to subject text html w = (Raise e, sent c w1 msg).
Proof.
  intros Hto Hc Hg He. rewrite send_email_run by exact Hto. now rewrite Hc, Hg, He.
Qed.

(** X8: a call that returns a record has made exactly one transport
    send and two platform calls; the send went to the client's host and
    port with the client's user name and password, and asked for
    STARTTLS exactly when implicit TLS was off. *)
Theorem one_send_with_config to subject text html w r w' :
  send_email P c to subject text html w = (Return r, w') ->
  exists msg p,
    smtp_sends (trace w') = smtp_sends (trace w) ++ [(msg, p)] /\
    sp_hostname p = host c /\ sp_port p = port c /\
    sp_username p = username c /\ sp_password p = password c /\
    sp_use_tls p = use_tls c /\ sp_start_tls p = negb (use_tls c) /\
    tick w' = (tick w + 2)%nat.
Proof.
  intros H. apply send_email_Return in H. destruct H as (_ & _ & -> & _).
  do 2 eexists. split.
  - unfold smtp_sends, sent, composed_world. simpl. rewrite !flat_map_app. simpl.
    rewrite !app_nil_r. reflexivity.
  - simpl. repeat split. lia.
Qed.

(** X10: a returned record has the keys of one of the two variants, in
    the order written, and reports every recipient exactly once: the
    accepted and the rejected recipients together are the recipient
    list, and one of the two lists is empty. *)
Theorem record_shape to subject text html w r w' :
  send_email P c to subject text html w = (Return r, w') ->
  (record_keys r = ["messageId"; "accepted"; "rejected"; "responseCode"; "responseInfo"] \/
   record_keys r = ["messageId"; "accepted"; "rejected"; "error"]) /\
  exists acc rej,
    result_get "accepted" r = Some (PyList acc) /\
    result_get "rejected" r = Some (PyList rej) /\
    acc ++ rej = PyStr <$> to /\
    (acc = [] \/ rej = []).
Proof.
  intros H. apply send_email_Return in H. destruct H as (_ & _ & _ & Hcases).
  destruct Hcases as [(code & t & _ & ->) | (e & _ & _ & ->)].
  - split; [left; reflexivity|]. exists (PyStr <$> to), [].
    repeat split; [apply app_nil_r | now right].
  - split; [right; reflexivity|]. exists [], (PyStr <$> to).
    repeat split. now left.
Qed.

End SenderMore.

(* ===================================================================== *)
(** ** Further properties: the Tool Gateway *)
(* ===================================================================== *)

Lemma py_or_idem (a d : pyval) : py_or (py_or a d) d = py_or a d.
Proof.
  unfold py_or. destruct (truthy a) eqn:Ha; [now rewrite Ha|].
  destruct (truthy d); reflexivity.
Qed.

(** What composition has recorded when the library refuses a value. *)
Lemma compose_Raise_trace (P : Platform) (c : EmailClient) to subject text html w e w' :
  compose P c to subject text html w = (Raise e, w') ->
  sender_entries (trace w') = sender_entries (trace w).
Proof.
  unfold compose. run_monad. unfold sender_entries.
  destruct (header_refused P "From" _); [refused_case|].
  destruct (header_refused P "To" _); [refused_case|].
  destruct (header_refused P "Subject" _); [refused_case|].
  destruct (header_refused P "Message-Id" _); [refused_case|].
  destruct (truthy html); simpl.
  - destruct (content_refused P _ "plain"); [refused_case|].
    destruct (content_refused P html "html"); [refused_case|].
    discriminate.
  - destruct (content_refused P _ "plain"); [refused_case|].
    discriminate.
Qed.

(** Every call of [send_email] is one entry, whatever its outcome. *)
Lemma send_email_entry (P : Platform) (c : EmailClient) to subject text html w :
  sender_entries (trace (snd (send_email P c to subject text html w)))
  = sender_entries (trace w) ++ [(to, subject, text, html)].
Proof.
  assert (He : sender_entries (trace (entered w to subject text html))
               = sender_entries (trace w) ++ [(to, subject, text, html)]).
  { unfold sender_entries, entered. simpl. now rewrite flat_map_app. }
  destruct to as [|t0 to'].
  - rewrite send_email_empty. exact He.
  - rewrite send_email_run by discriminate.
    destruct (compose P c (t0 :: to') subject text html _) as [[[msg msg_id]|e] w1] eqn:Hc.
    + apply compose_Return in Hc. destruct Hc as (_ & _ & Hw1).
      assert (Hs : sender_entries (trace (sent c w1 msg))
                   = sender_entries (trace w) ++ [(t0 :: to', subject, text, html)]).
      { rewrite <- He. subst w1. unfold sender_entries, sent. simpl.
        rewrite !flat_map_app. simpl. now rewrite !app_nil_r. }
      destruct (guarded _) as [[code t]|e]; [exact Hs|].
      destruct (is_Exception e); exact Hs.
    + apply compose_Raise_trace in Hc. simpl. now rewrite Hc.
Qed.

Section GatewayMore.

Variable P : Platform.
Variable c : EmailClient.

(** The handler's world is the world [send_email] leaves. *)
Lemma handle_call_tool_world arguments w :
  is_str_list (py_or (dict_get arguments "to") (PyList [])) = true ->
  snd (handle_call_tool P c "send_email" arguments w) =
  snd (send_email P c (str_items (list_items (py_or (dict_get arguments "to") (PyList []))))
         (arg_subject arguments) (arg_body arguments) PyNone w).
Proof.
  intros Hl. rewrite handle_call_tool_send. cbv zeta. rewrite Hl.
  destruct (send_email _ _ _ _ _ _ _) as [[r|e] w']; reflexivity.
Qed.

Lemma to_list_is_str_list (arguments : gmap string pyval) (to : list string) :
  arguments !! "to" = Some (PyList (PyStr <$> to)) ->
  py_or (dict_get arguments "to") (PyList []) = PyList (PyStr <$> to) /\
  is_str_list (PyList (PyStr <$> to)) = true.
Proof.
  intros H. unfold dict_get. rewrite H. split.
  - destruct to; reflexivity.
  - unfold is_str_list. simpl. apply forallb_str_fmap.
Qed.

(** X11: for a [to] that is a list of strings the handler relays
    [send_email]: a returned record becomes the single text item that
    holds its JSON text, a raised error is raised unchanged, and the
    world is the one [send_email] leaves. *)
Theorem handler_relays_send_email (arguments : gmap string pyval) (to : list string) (w : World) :
  arguments !! "to" = Some (PyList (PyStr <$> to)) ->
  (forall r w',
     send_email P c to (arg_subject arguments) (arg_body arguments) PyNone w = (Return r, w') ->
     handle_call_tool P c "send_email" arguments w
     = (Return [mkTextContent "text" (json_dumps r)], w')) /\
  (forall e w',
     send_email P c to (arg_subject arguments) (arg_body arguments) PyNone w = (Raise e, w') ->
     handle_call_tool P c "send_email" arguments w = (Raise e, w')).
Proof.
  intros Hto. destruct (to_list_is_str_list _ _ Hto) as [Hor Hl].
  split; intros x w' H; rewrite handle_call_tool_send; cbv zeta;
    rewrite Hor, Hl; cbn [list_items]; rewrite str_items_fmap, H; reflexivity.
Qed.

(** X12: the handler reads the three arguments that the advertised
    schema requires and nothing else: two argument dicts that agree on
    the required names give the same outcome and the same world. *)
Theorem handler_reads_required_only (name : string) (a1 a2 : gmap string pyval) (w : World) :
  (forall t k, In t handle_list_tools -> In k (tool_required t) -> a1 !! k = a2 !! k) ->
  handle_call_tool P c name a1 w = handle_call_tool P c name a2 w.
Proof.
  intros H.
  assert (Hk : forall k, In k ["to"; "subject"; "body"] -> a1 !! k = a2 !! k).
  { intros k Hin. apply (H (hd (mkTool "" "" PyNone) handle_list_tools)); [now left|].
    exact Hin. }
  unfold handle_call_tool, dict_get.
  rewrite (Hk "to"), (Hk "subject"), (Hk "body") by (simpl; tauto).
  reflexivity.
Qed.

(** X13: the handler never passes [html]: whatever the tool name and
    the arguments, a message it causes to be sent has exactly one part,
    and that part is text/plain; it is never a multipart/alternative
    message and carries no HTML part. *)
Theorem gateway_sends_plain_text (name : string) (arguments : gmap string pyval)
    (w : World) (m : Message) (p : SendParams) :
  In (m, p) (smtp_sends (trace (snd (handle_call_tool P c name arguments w)))) ->
  In (m, p) (smtp_sends (trace w)) \/
  part_subtype <$> content_parts m = ["plain"].
Proof.
  destruct (String.eqb_spec name "send_email") as [-> | Hname].
  - destruct (is_str_list (py_or (dict_get arguments "to") (PyList []))) eqn:Hl.
    + rewrite (handle_call_tool_world _ _ Hl).
      destruct (send_email_sends_exact P c
                  (str_items (list_items (py_or (dict_get arguments "to") (PyList []))))
                  (arg_subject arguments) (arg_body arguments) PyNone w) as (l & -> & Hcase).
      intros Hin. apply in_app_or in Hin. destruct Hin as [Hin | Hin]; [now left|].
      right. destruct Hcase as [-> | ->]; [destruct Hin|].
      destruct Hin as [Heq | Hin]; [|destruct Hin]. inversion Heq; subst.
      reflexivity.
    + rewrite handle_call_tool_send. cbv zeta. rewrite Hl. now left.
  - unfold handle_call_tool. apply String.eqb_neq in Hname. rewrite Hname. now left.
Qed.

(** X14: [subject] and [body] are not type-checked: with a [to] that
    is a list of strings the Mail Sender is entered exactly once, with
    [html] absent and with each of the two arguments as given when it is
    truthy, of whatever type, and the empty string when it is missing or
    falsy. *)
Theorem gateway_passes_arguments (arguments : gmap string pyval) (to : list string) (w : World) :
  arguments !! "to" = Some (PyList (PyStr <$> to)) ->
  sender_entries (trace (snd (handle_call_tool P c "send_email" arguments w)))
  = sender_entries (trace w) ++ [(to, arg_subject arguments, arg_body arguments, PyNone)] /\
  (forall v, arguments !! "subject" = Some v -> truthy v = true -> arg_subject arguments = v) /\
  (forall v, arguments !! "body" = Some v -> truthy v = true -> arg_body arguments = v) /\
  (forall v, arguments !! "subject" = Some v -> truthy v = false ->
             arg_subject arguments = PyStr EmptyString) /\
  (forall v, arguments !! "body" = Some v -> truthy v = false ->
             arg_body arguments = PyStr EmptyString) /\
  (arguments !! "subject" = None -> arg_subject arguments = PyStr EmptyString) /\
  (arguments !! "body" = None -> arg_body arguments = PyStr EmptyString).
Proof.
  intros Hto. destruct (to_list_is_str_list _ _ Hto) as [Hor Hl].
  split.
  - rewrite handle_call_tool_world by (rewrite Hor; exact Hl).
    rewrite Hor. cbn [list_items]. rewrite str_items_fmap. apply send_email_entry.
  - unfold arg_subject, arg_body, dict_get, py_or.
    repeat split; intros; repeat match goal with
                                 | H : _ !! _ = _ |- _ => rewrite H
                                 | H : truthy _ = _ |- _ => rewrite H
                                 end; reflexivity.
Qed.

End GatewayMore.

(* ===================================================================== *)
(** ** Further properties: the payload text *)
(* ===================================================================== *)

Lemma printable_app (a b : string) : printable (a +:+ b) = printable a && printable b.
Proof. induction a as [|ch a IH]; simpl; [reflexivity|]. now rewrite IH, andb_assoc. Qed.

Lemma json_escape_char_printable (ch : ascii) : printable (json_escape_char ch) = true.
Proof. destruct ch as [[] [] [] [] [] [] [] []]; reflexivity. Qed.

Lemma json_escape_printable (s : string) : printable (json_escape s) = true.
Proof.
  induction s as [|ch s IH]; simpl; [reflexivity|].
  now rewrite printable_app, json_escape_char_printable, IH.
Qed.

Lemma json_string_printable (s : string) : printable (json_string s) = true.
Proof.
  unfold json_string. cbn [printable].
  rewrite printable_app, json_escape_printable. reflexivity.
Qed.

Lemma atext_printable (ch : ascii) : atext ch = true -> printable_char ch = true.
Proof. destruct ch as [[] [] [] [] [] [] [] []]; cbv; congruence. Qed.

Lemma all_atext_printable (s : string) : all_atext s = true -> printable s = true.
Proof.
  induction s as [|ch s IH]; simpl; [reflexivity|].
  intros H. apply andb_true_iff in H. destruct H as [Hc Hs].
  now rewrite (atext_printable _ Hc), (IH Hs).
Qed.

Lemma join_printable (sep : string) (l : list string) :
  printable sep = true ->
  Forall (fun x => printable x = true) l ->
  printable (join sep l) = true.
Proof.
  intros Hsep H. induction H as [|x l Hx Hl IH]; [reflexivity|].
  destruct l as [|y l']; [exact Hx|].
  change (join sep (x :: y :: l')) with (x +:+ sep +:+ join sep (y :: l')).
  now rewrite !printable_app, Hx, Hsep, IH.
Qed.

Lemma pyval_size_pos (v : pyval) : (1 <= pyval_size v)%nat.
Proof. destruct v; simpl; lia. Qed.

(** [json.dumps] writes printable ASCII only. *)
Lemma json_dumps_printable_bounded (n : nat) :
  forall v, (pyval_size v <= n)%nat -> floats_printable v = true ->
            printable (json_dumps v) = true.
Proof.
  induction n as [|n IH]; intros v Hsize Hf.
  { pose proof (pyval_size_pos v). lia. }
  destruct v as [| b | z | f | s | l | d].
  - reflexivity.
  - destruct b; reflexivity.
  - apply all_atext_printable, dec_all_atext.
  - exact Hf.
  - apply json_string_printable.
  - change (json_dumps (PyList l)) with ("[" +:+ join ", " (List.map json_dumps l) +:+ "]").
    change (pyval_size (PyList l)) with (S (list_sum (List.map pyval_size l))) in Hsize.
    change (floats_printable (PyList l)) with (forallb floats_printable l) in Hf.
    rewrite !printable_app. rewrite join_printable; [reflexivity | reflexivity |].
    assert (Hs : (list_sum (List.map pyval_size l) <= n)%nat) by lia. clear Hsize.
    induction l as [|x l IHl]; [constructor|].
    simpl in Hs, Hf. apply andb_true_iff in Hf. destruct Hf as [Hx Hl].
    constructor; [apply IH; [lia | exact Hx] | apply IHl; [exact Hl | lia]].
  - change (json_dumps (PyDict d))
      with ("{" +:+ join ", " (List.map (fun kv => json_string (fst kv) +:+ ": "
                                                   +:+ json_dumps (snd kv)) d) +:+ "}").
    change (pyval_size (PyDict d))
      with (S (list_sum (List.map (fun kv => pyval_size (snd kv)) d))) in Hsize.
    change (floats_printable (PyDict d))
      with (forallb (fun kv => floats_printable (snd kv)) d) in Hf.
    rewrite !printable_app. rewrite join_printable; [reflexivity | reflexivity |].
    assert (Hs : (list_sum (List.map (fun kv => pyval_size (snd kv)) d) <= n)%nat) by lia.
    clear Hsize.
    induction d as [|[k x] d IHd]; [constructor|].
    simpl in Hs, Hf. apply andb_true_iff in Hf. destruct Hf as [Hx Hd].
    constructor; [|apply IHd; [exact Hd | lia]].
    cbn [fst snd]. rewrite !printable_app, json_string_printable.
    rewrite (IH x); [reflexivity | lia | exact Hx].
Qed.

Lemma json_dumps_printable (v : pyval) :
  floats_printable v = true -> printable (json_dumps v) = true.
Proof. apply (json_dumps_printable_bounded (pyval_size v)). lia. Qed.

Lemma floats_printable_strs (l : list string) : forallb floats_printable (PyStr <$> l) = true.
Proof. induction l as [|x l IH]; [reflexivity|]. rewrite fmap_cons. simpl. exact IH. Qed.

(** X15: the text the handler returns is printable ASCII, so it is one
    line without control characters whatever the recipients, the header
    values, the server's response text or the error text contain;
    floats inside the code returned by the transport are assumed to
    have a printable [repr]. *)
Theorem payload_is_printable (P : Platform) (c : EmailClient) (name : string)
    (arguments : gmap string pyval) (w : World) (content : list TextContent) (w' : World) :
  (forall n m p code info,
     smtp_send P n m p = Return (code, info) -> floats_printable code = true) ->
  handle_call_tool P c name arguments w = (Return content, w') ->
  exists t, content = [mkTextContent "text" t] /\ printable t = true.
Proof.
  intros Hcode H.
  destruct (String.eqb_spec name "send_email") as [-> | Hname].
  2:{ unfold handle_call_tool in H. apply String.eqb_neq in Hname. rewrite Hname in H.
      discriminate. }
  rewrite handle_call_tool_send in H. cbv zeta in H.
  destruct (is_str_list _); [|discriminate].
  destruct (send_email _ _ _ _ _ _ _) as [[r|e] w1] eqn:Hs; [|discriminate].
  inversion H; subst; clear H. eexists. split; [reflexivity|].
  apply json_dumps_printable.
  apply send_email_Return in Hs. destruct Hs as (_ & _ & _ & Hcases).
  destruct Hcases as [(code & t & Hg & ->) | (e & _ & _ & ->)].
  - unfold guarded in Hg.
    destruct (smtp_send P _ _ _) as [[code' info]|e] eqn:Hsend; [|discriminate].
    destruct (response_info info); [|discriminate].
    inversion Hg; subst. unfold success_record. simpl.
    rewrite floats_printable_strs, (Hcode _ _ _ _ _ Hsend). reflexivity.
  - unfold failure_record. simpl. rewrite floats_printable_strs. reflexivity.
Qed.

(* ===================================================================== *)
(** ** Worked instances of the further properties *)
(* ===================================================================== *)

Lemma config_errors_witness :
  EmailClient_init ∅ = Raise (mk_exn RuntimeError "SMTP_HOST is required") /\
  EmailClient_init env_no_user
  = Raise (mk_exn RuntimeError "SMTP_USER and SMTP_PASS are required").
Proof.
  split.
  - apply (proj1 (config_errors ∅)). reflexivity.
  - apply (proj2 (config_errors env_no_user)); reflexivity.
Defined.

Lemma config_fields_witness :
  from_addr client_from = "noreply@example.com" /\ from_addr client1 = username client1.
Proof.
  assert (Hinit : EmailClient_init env_from = Return client_from) by reflexivity.
  assert (Hinit1 : EmailClient_init env1 = Return client1) by reflexivity.
  assert (Hfrom : env_from !! "SMTP_FROM" = Some "noreply@example.com") by reflexivity.
  destruct (config_fields env_from client_from Hinit) as (_ & _ & _ & _ & _ & _ & _ & Hf & _).
  destruct (config_fields env1 client1 Hinit1) as (_ & _ & _ & _ & _ & _ & _ & _ & Hu).
  split; [apply (Hf _ Hfrom); discriminate | apply Hu; reflexivity].
Defined.

Lemma secure_only_for_true_witness :
  use_tls client_from = true /\ use_tls client1 = false.
Proof.
  assert (Hinit : EmailClient_init env_from = Return client_from) by reflexivity.
  assert (Hinit1 : EmailClient_init env1 = Return client1) by reflexivity.
  assert (Hsec : env_from !! "SMTP_SECURE" = Some "TrUe") by reflexivity.
  split.
  - exact (proj2 (secure_only_for_true env_from client_from Hinit) "TrUe" Hsec).
  - apply (proj1 (secure_only_for_true env1 client1 Hinit1)). reflexivity.
Defined.

Lemma port_read_back_witness : port client_from = 465.
Proof.
  assert (Hinit : EmailClient_init env_from = Return client_from) by reflexivity.
  assert (Hport : env_from !! "SMTP_PORT" = Some (dec 465)) by reflexivity.
  apply (port_read_back env_from client_from 465 Hinit Hport).
  apply Nat.leb_le. reflexivity.
Defined.

Lemma success_echoes_reply_witness :
  send_email accepting client1 to1 (PyStr "Hi") (PyStr "Hello") PyNone world0 =
  (Return (success_record id1 to1 (PyInt 250) "2.0.0 OK"), sent client1 composed1 msg1).
Proof.
  assert (Hto : to1 <> []) by discriminate.
  exact (proj1 (success_echoes_reply accepting client1 to1 (PyStr "Hi") (PyStr "Hello") PyNone
                  world0 msg1 id1 composed1 (PyInt 250)
                  {| info_has_decode := false; info_decode := Return "2.0.0 OK";
                     info_str := "2.0.0 OK" |}
                  Hto eq_refl eq_refl) eq_refl).
Defined.

Lemma undecodable_reply_is_failure_witness :
  send_email undecodable client1 to1 (PyStr "Hi") (PyStr "Hello") PyNone world0 =
    (Return (failure_record id1 to1 (exc_str decode_error)), sent client1 composed1 msg1) /\
  smtp_sends (trace (sent client1 composed1 msg1)) = [(msg1, params1)].
Proof.
  assert (Hto : to1 <> []) by discriminate.
  exact (undecodable_reply_is_failure undecodable client1 to1 (PyStr "Hi") (PyStr "Hello")
           PyNone world0 msg1 id1 composed1 (PyInt 250)
           {| info_has_decode := true; info_decode := Raise decode_error;
              info_str := "b'...'" |}
           decode_error Hto eq_refl eq_refl eq_refl eq_refl eq_refl).
Defined.

Lemma non_exception_propagates_witness :
  send_email (failing cancelled) client1 to1 (PyStr "Hi") (PyStr "Hello") PyNone world0 =
  (Raise cancelled, sent client1 composed1 msg1).
Proof.
  assert (Hto : to1 <> []) by discriminate.
  exact (non_exception_propagates (failing cancelled) client1 to1 (PyStr "Hi") (PyStr "Hello")
           PyNone world0 msg1 id1 composed1 cancelled Hto eq_refl eq_refl eq_refl).
Defined.

Lemma one_send_with_config_witness :
  exists msg p,
    smtp_sends (trace (sent client1 composed1 msg1)) = smtp_sends (trace world0) ++ [(msg, p)] /\
    sp_hostname p = "smtp.example.com" /\ sp_port p = 587 /\
    sp_username p = "a@example.com" /\ sp_password p = "x" /\
    sp_use_tls p = false /\ sp_start_tls p = true /\
    tick (sent client1 composed1 msg1) = 2%nat.
Proof.
  exact (one_send_with_config accepting client1 to1 (PyStr "Hi") (PyStr "Hello") PyNone world0
           (success_record id1 to1 (PyInt 250) "2.0.0 OK") (sent client1 composed1 msg1)
           eq_refl).
Defined.

Lemma record_shape_witness :
  record_keys (failure_record id1 to1 (exc_str auth_error))
  = ["messageId"; "accepted"; "rejected"; "error"] /\
  exists acc rej,
    result_get "accepted" (failure_record id1 to1 (exc_str auth_error)) = Some (PyList acc) /\
    result_get "rejected" (failure_record id1 to1 (exc_str auth_error)) = Some (PyList rej) /\
    acc ++ rej = PyStr <$> to1 /\ (acc = [] \/ rej = []).
Proof.
  destruct (record_shape (failing auth_error) client1 to1 (PyStr "Hi") (PyStr "Hello") PyNone
              world0 (failure_record id1 to1 (exc_str auth_error))
              (sent client1 composed1 msg1) eq_refl) as (_ & Hparts).
  split; [reflexivity | exact Hparts].
Defined.

Lemma handler_relays_send_email_witness :
  handle_call_tool accepting client1 "send_email" args1 world0 =
  (Return [mkTextContent "text" (json_dumps (success_record id1 to1 (PyInt 250) "2.0.0 OK"))],
   sent client1 composed1 msg1).
Proof.
  assert (Hto : args1 !! "to" = Some (PyList (PyStr <$> to1))) by reflexivity.
  apply (proj1 (handler_relays_send_email accepting client1 args1 to1 world0 Hto)).
  reflexivity.
Defined.

Lemma handler_reads_required_only_witness :
  handle_call_tool accepting client1 "send_email" args_extra world0
  = handle_call_tool accepting client1 "send_email" args1 world0.
Proof.
  apply handler_reads_required_only.
  intros t k Ht Hk. simpl in Ht. destruct Ht as [<- | []].
  simpl in Hk. destruct Hk as [<- | [<- | [<- | []]]]; reflexivity.
Defined.

Lemma gateway_sends_plain_text_witness :
  part_subtype <$> content_parts msg1 = ["plain"].
Proof.
  assert (Hin : In (msg1, params1)
                  (smtp_sends (trace (snd (handle_call_tool accepting client1 "send_email"
                                             args1 world0)))))
    by (left; reflexivity).
  destruct (gateway_sends_plain_text accepting client1 "send_email" args1 world0
              msg1 params1 Hin) as [Hold | Hnew].
  - destruct Hold.
  - exact Hnew.
Defined.

Lemma gateway_passes_arguments_witness :
  sender_entries (trace (snd (handle_call_tool accepting client1 "send_email"
                                args_numeric_subject world0)))
  = [(to1, PyInt 5, PyStr "Hello", PyNone)].
Proof.
  assert (Hto : args_numeric_subject !! "to" = Some (PyList (PyStr <$> to1))) by reflexivity.
  assert (Hsub : args_numeric_subject !! "subject" = Some (PyInt 5)) by reflexivity.
  assert (Hbody : args_numeric_subject !! "body" = Some (PyStr "Hello")) by reflexivity.
  destruct (gateway_passes_arguments accepting client1 args_numeric_subject to1 world0 Hto)
    as (Hentry & Hs & Hb & _).
  rewrite Hentry, (Hs _ Hsub eq_refl), (Hb _ Hbody eq_refl). reflexivity.
Defined.

Lemma payload_is_printable_witness :
  exists t,
    [mkTextContent "text" (json_dumps (failure_record id1 to1 (exc_str auth_error)))]
    = [mkTextContent "text" t] /\ printable t = true.
Proof.
  apply (payload_is_printable (failing auth_error) client1 "send_email" args1 world0
           _ (sent client1 composed1 msg1)).
  - intros n m p code info H. discriminate H.
  - reflexivity.
Defined.
